(** * Insight-generation workflow of the analytics dashboard

    A shallow embedding of the LangGraph agent described in the
    repository's agent architecture document: the agent state with its
    reducers, the confidence heuristic [_calculate_confidence], the
    conditional edge [_should_continue] and the node graph
    analyze_metrics -> generate_insights -> quality_check -> (conditional).

    Python floats are IEEE binary64 values; they are embedded as Rocq's
    primitive floats, so [0.5 + 0.2] below is the very double Python
    computes. *)

From Stdlib Require Import Floats ZArith QArith.
From stdpp Require Import gmap strings list sorting.

Set Warnings "-inexact-float".
Local Open Scope Z_scope.

(** ** Python values stored in [Dict[str, Any]] *)

Module Py.

(** The values the agent keeps in the [current_analysis] dictionary. *)
Inductive value : Type :=
| PyNone
| PyBool (b : bool)
| PyInt (z : Z)
| PyFloat (f : float)
| PyStr (s : string)
| PyStrs (l : list string)
| PyRange (lo hi : Q).

(** Python truthiness, as used by [and] and [if]. *)
Definition truthy (v : value) : bool :=
  match v with
  | PyNone => false
  | PyBool b => b
  | PyInt z => negb (z =? 0)
  | PyFloat f => negb (PrimFloat.eqb f 0%float)
  | PyStr s => match s with EmptyString => false | String _ _ => true end
  | PyStrs l => match l with [] => false | _ => true end
  | PyRange _ _ => true
  end.

(** [d.get(key, default)] *)
Definition get (d : gmap string value) (key : string) (default : value) : value :=
  match d !! key with
  | Some v => v
  | None => default
  end.

End Py.

(** ** Agent state

    [class AgentState(TypedDict)]: [messages] and [insights] are annotated
    with [operator.add]; the other keys have no reducer. *)

Record BaseMessage := { role : string; content : string }.

Record Metric := {
  id : Z;
  name : string;
  value : Q;
  category : string;
  description : option string
}.

Record AgentState := {
  messages : list BaseMessage;
  metrics_data : list Metric;
  insights : list string;
  current_analysis : gmap string Py.value;
  confidence_score : float
}.

(** What a node returns: a partial dictionary of state keys. *)
Record Update := {
  u_messages : option (list BaseMessage);
  u_metrics_data : option (list Metric);
  u_insights : option (list string);
  u_current_analysis : option (gmap string Py.value);
  u_confidence_score : option float
}.

Definition no_update : Update :=
  {| u_messages := None; u_metrics_data := None; u_insights := None;
     u_current_analysis := None; u_confidence_score := None |}.

(** The two channel kinds of the state graph. *)
Definition reduce_add {A} (old : list A) (upd : option (list A)) : list A :=
  match upd with
  | Some new => old ++ new
  | None => old
  end.

Definition reduce_replace {A} (old : A) (upd : option A) : A :=
  match upd with
  | Some new => new
  | None => old
  end.

(** Applying a node's return value to the state. *)
Definition apply_update (st : AgentState) (u : Update) : AgentState :=
  {| messages := reduce_add (messages st) (u_messages u);
     metrics_data := reduce_replace (metrics_data st) (u_metrics_data u);
     insights := reduce_add (insights st) (u_insights u);
     current_analysis := reduce_replace (current_analysis st) (u_current_analysis u);
     confidence_score := reduce_replace (confidence_score st) (u_confidence_score u) |}.

(** The architecture overview's earlier plan of the state declares
    [insights: List[str]] with no reducer; under that declaration a node's
    value replaces the channel.  The implemented [AgentState] above is the
    one the agent runs on. *)
Definition apply_update_planned (st : AgentState) (u : Update) : AgentState :=
  {| messages := reduce_add (messages st) (u_messages u);
     metrics_data := reduce_replace (metrics_data st) (u_metrics_data u);
     insights := reduce_replace (insights st) (u_insights u);
     current_analysis := reduce_replace (current_analysis st) (u_current_analysis u);
     confidence_score := reduce_replace (confidence_score st) (u_confidence_score u) |}.

(** ** The conditional edge *)

(** The three strings [_should_continue] returns. *)
Inductive RoutingLabel : Set :=
| label_continue
| label_regenerate
| label_end.

Definition RoutingLabel_eqb (a b : RoutingLabel) : bool :=
  match a, b with
  | label_continue, label_continue
  | label_regenerate, label_regenerate
  | label_end, label_end => true
  | _, _ => false
  end.

(** [def _should_continue(self, state)] *)
Definition _should_continue (state : AgentState) : RoutingLabel :=
  let quality_acceptable :=
    Py.get (current_analysis state) "quality_acceptable" (Py.PyBool false) in
  let confidence := confidence_score state in
  if Py.truthy quality_acceptable && PrimFloat.leb 0.7%float confidence then
    label_continue
  else if PrimFloat.ltb confidence 0.5%float then
    label_regenerate
  else
    label_end.

(** The decision list as the specification words it: three ordered rules
    over the confidence alone. *)
Definition spec_decision (confidence : float) : RoutingLabel :=
  if PrimFloat.leb 0.7%float confidence then label_end
  else if PrimFloat.ltb confidence 0.5%float then label_regenerate
  else label_end.

(** ** Confidence scoring *)

(** Python's [min(a, b)]: [b] when [b < a], else [a]. *)
Definition py_min (a b : float) : float :=
  if PrimFloat.ltb b a then b else a.

(** Python's [max(a, b)]: [b] when [b > a], else [a]. *)
Definition py_max (a b : float) : float :=
  if PrimFloat.ltb a b then b else a.

(** The three quantities [_calculate_confidence] tests.  The excerpt of the
    method uses [avg_length], [has_numbers] and [has_action_words] without
    showing how they are computed, so the method is embedded over any way
    of computing them. *)
Record InsightTests := {
  avg_length : list string -> float;
  has_numbers : list string -> bool;
  has_action_words : list string -> bool
}.

(** [def _calculate_confidence(self, insights, analysis) -> float] *)
Definition _calculate_confidence (T : InsightTests)
    (insights : list string) (analysis : gmap string Py.value) : float :=
  let confidence := 0.5%float in
  let confidence :=
    if PrimFloat.ltb 50%float (avg_length T insights)
    then (confidence + 0.2)%float else confidence in
  let confidence :=
    if has_numbers T insights then (confidence + 0.1)%float else confidence in
  let confidence :=
    if has_action_words T insights then (confidence + 0.2)%float else confidence in
  py_min confidence 1.0%float.

(** The heuristic as the specification words it: a base, a table of
    weighted tests, and a clamp to [[0.0, 1.0]] on both sides. *)
Definition clamp (lo hi x : float) : float :=
  py_max lo (py_min x hi).

Definition weight_table (T : InsightTests) (insights : list string)
    : list (bool * float) :=
  [ (PrimFloat.ltb 50%float (avg_length T insights), 0.2%float);
    (has_numbers T insights, 0.1%float);
    (has_action_words T insights, 0.2%float) ].

Definition add_weight (acc : float) (row : bool * float) : float :=
  if fst row then (acc + snd row)%float else acc.

Definition spec_confidence (T : InsightTests) (insights : list string) : float :=
  clamp 0.0%float 1.0%float (foldl add_weight 0.5%float (weight_table T insights)).

(** [0.0 <= c <= 1.0] on floats. *)
Definition in_unit_interval (c : float) : bool :=
  PrimFloat.leb 0.0%float c && PrimFloat.leb c 1.0%float.

(** *** The three tests, from the specification *)

Definition is_digit (c : Ascii.ascii) : bool :=
  let n := Ascii.nat_of_ascii c in (48 <=? n)%nat && (n <=? 57)%nat.

Fixpoint string_exists (p : Ascii.ascii -> bool) (s : string) : bool :=
  match s with
  | EmptyString => false
  | String c rest => p c || string_exists p rest
  end.

Fixpoint is_prefix (p s : string) : bool :=
  match p, s with
  | EmptyString, _ => true
  | String a p', String b s' => Ascii.eqb a b && is_prefix p' s'
  | String _ _, EmptyString => false
  end.

(** [word in text] *)
Fixpoint contains (text word : string) : bool :=
  is_prefix word text ||
  match text with
  | EmptyString => false
  | String _ rest => contains rest word
  end.

Definition total_length (insights : list string) : nat :=
  foldr (fun s acc => (String.length s + acc)%nat) 0%nat insights.

Definition float_of_nat (n : nat) : float :=
  PrimFloat.of_uint63 (Uint63.of_Z (Z.of_nat n)).

(** Modelled from the spec: the computation of [avg_length],
    [has_numbers] and [has_action_words] is missing from the excerpt of
    [_calculate_confidence].  Section 4.4 gives them as the average
    insight length, "any insight contains a numeric token" and "any
    insight contains an action-indicating verb, drawn from a fixed
    vocabulary"; the mean of no insights is taken as [0]. *)
Definition spec_tests (vocabulary : list string) : InsightTests :=
  {| avg_length := fun insights =>
       match insights with
       | [] => 0%float
       | _ => (float_of_nat (total_length insights)
               / float_of_nat (length insights))%float
       end;
     has_numbers := fun insights =>
       existsb (string_exists is_digit) insights;
     has_action_words := fun insights =>
       existsb (fun insight =>
                  existsb (fun word => contains insight word) vocabulary)
               insights |}.

(** The verbs the specification names as examples of the vocabulary. *)
Definition example_vocabulary : list string :=
  ["increase"; "reduce"; "investigate"; "optimize"]%string.

(** ** Analyze *)

Record Analysis := {
  total_metrics : Z;
  categories : list string;
  value_min : Q;
  value_max : Q
}.

Definition q_min (a b : Q) : Q := if Qle_bool a b then a else b.
Definition q_max (a b : Q) : Q := if Qle_bool a b then b else a.

(** Modelled from the spec: the body of [analyze_metrics_node] is missing
    from the source; only the keys the prompt reads from its result are
    there ([total_metrics], [categories], [value_ranges.min/max]).
    Section 4.2: record count, set of distinct categories, numeric value
    range; defined on a non-empty batch [first :: rest]. *)
Definition analyze (first : Metric) (rest : list Metric) : Analysis :=
  {| total_metrics := Z.of_nat (length (first :: rest));
     categories := remove_dups (category <$> (first :: rest));
     value_min := foldl q_min (value first) (value <$> rest);
     value_max := foldl q_max (value first) (value <$> rest) |}.

(** The dictionary the prompt template indexes. *)
Definition analysis_dict (a : Analysis) : gmap string Py.value :=
  <["total_metrics" := Py.PyInt (total_metrics a)]>
  (<["categories" := Py.PyStrs (categories a)]>
  (<["value_ranges" := Py.PyRange (value_min a) (value_max a)]> ∅)).

(** [analyze_metrics_node]: the analysis replaces [current_analysis]. *)
Definition analyze_metrics_node (state : AgentState) : Update :=
  match metrics_data state with
  | [] => no_update
  | first :: rest =>
      {| u_messages := None; u_metrics_data := None; u_insights := None;
         u_current_analysis := Some (analysis_dict (analyze first rest));
         u_confidence_score := None |}
  end.

(** ** Collaborators, errors and output records *)

(** How the text-generation collaborator fails. *)
Inductive LLMFailure : Set := timeout | rateLimited | malformedResponse.

Inductive EngineError : Set :=
| InputError
| LLMError (cause : LLMFailure).

(** [type: 'trend' | 'risk' | 'opportunity' | 'recommendation' | 'observation'] *)
Inductive InsightType : Set :=
| trend | risk | opportunity | recommendation | observation.

(** One entry of [agent_result["insights"]]. *)
Record InsightRecord := {
  text : string;
  type : InsightType;
  confidence : float
}.

(** The nodes of the graph. *)
Inductive Node : Set :=
| analyze_metrics
| generate_insights
| quality_check
| format_response.

Definition Node_eqb (a b : Node) : bool :=
  match a, b with
  | analyze_metrics, analyze_metrics
  | generate_insights, generate_insights
  | quality_check, quality_check
  | format_response, format_response => true
  | _, _ => false
  end.

(** How a run ends: through one of the two leaving labels, with a typed
    failure, or not yet (the fuel of the model ran out inside the
    regenerate cycle). *)
Inductive Outcome : Type :=
| Done (exit : RoutingLabel) (final : AgentState) (records : list InsightRecord)
| Failed (e : EngineError)
| Looping (st : AgentState).

(** A run: its outcome, the nodes invoked in order, each with the state it
    left, and the number of calls made to the collaborator. *)
Record Run := {
  outcome : Outcome;
  visited : list (Node * AgentState);
  llm_calls : nat
}.

Definition invocations (n : Node) (r : Run) : nat :=
  length (List.filter (fun e => Node_eqb (fst e) n) (visited r)).

Definition is_done (o : Outcome) : bool :=
  match o with Done _ _ _ => true | _ => false end.

Definition records_of (o : Outcome) : list InsightRecord :=
  match o with Done _ _ rs => rs | _ => [] end.

(** Modelled from the spec: the construction of the initial state is
    missing from the source.  Section 3: created with the input records
    populated and all other fields at zero or empty defaults. *)
Definition initial_state (metrics : list Metric) : AgentState :=
  {| messages := []; metrics_data := metrics; insights := [];
     current_analysis := ∅; confidence_score := 0%float |}.

(** Modelled from the spec: the body of [quality_check_node] is missing
    from the source.  Section 4.4: it computes the confidence of the
    current insights with the scorer.  It stores it together with the
    [quality_acceptable] flag that [_should_continue] reads; how the flag
    is decided is not shown, [acceptable] stands for it. *)
Definition quality_check_node (T : InsightTests)
    (acceptable : AgentState -> float -> Py.value) (state : AgentState) : Update :=
  let c := _calculate_confidence T (insights state) (current_analysis state) in
  {| u_messages := None; u_metrics_data := None; u_insights := None;
     u_current_analysis :=
       Some (<["quality_acceptable" := acceptable state c]> (current_analysis state));
     u_confidence_score := Some c |}.

(** ** The engine *)

Section Engine.

(** The collaborator: what the [n]-th call answers to a prompt. *)
Variable llm : nat -> string -> LLMFailure + string.
(** The number of retries after a failed call. *)
Variable transient_budget : nat.
(** The prompt template and the splitting of a response into insights. *)
Variable prompt_of : gmap string Py.value -> string.
Variable split_insights : string -> list string.
(** The quality gate: its state update after a generation. *)
Variable quality_gate : AgentState -> Update.
(** The keyword classifier of the format step. *)
Variable classify : string -> InsightType.
(** The edge map of the conditional for the two leaving labels: whether
    the label leads through format_response before END.  The map is not
    in the excerpt; the workflow diagram shows format_response and END as
    two exits, the specification sends every leaving label to Format. *)
Variable through_format : RoutingLabel -> bool.

(** Modelled from the spec: the retry of a failed collaborator call is
    missing from the source.  Section 4.3: "retried up to a fixed
    transient-failure budget"; [calls] counts the calls made so far. *)
Fixpoint call_llm (retries calls : nat) (prompt : string)
    : (LLMFailure + string) * nat :=
  match llm calls prompt with
  | inr response => (inr response, S calls)
  | inl err =>
      match retries with
      | O => (inl err, S calls)
      | S retries' => call_llm retries' (S calls) prompt
      end
  end.

(** [generate_insights_node]: prompt, collaborator call, and the update
    that adds the new insights and the request/response pair. *)
Definition generate_insights_node (state : AgentState) (calls : nat)
    : (LLMFailure + Update) * nat :=
  let prompt := prompt_of (current_analysis state) in
  match call_llm transient_budget calls prompt with
  | (inl err, calls') => (inl err, calls')
  | (inr response, calls') =>
      (inr {| u_messages :=
                Some [ {| role := "human"; content := prompt |};
                       {| role := "ai"; content := response |} ];
              u_metrics_data := None;
              u_insights := Some (split_insights response);
              u_current_analysis := None;
              u_confidence_score := None |},
       calls')
  end.

(** Modelled from the spec: the body of [format_response_node] is
    missing from the source.  Section 4.6: each insight is classified
    and paired with the run's final confidence. *)
Definition format_response_node (state : AgentState) : list InsightRecord :=
  (fun s => {| text := s; type := classify s;
               confidence := confidence_score state |}) <$> insights state.

(** Leaving the cycle with label [exit]. *)
Definition leave (exit : RoutingLabel) (gated : AgentState) (calls : nat)
    (log : list (Node * AgentState)) : Run :=
  if through_format exit then
    {| outcome := Done exit gated (format_response_node gated);
       visited := log ++ [(format_response, gated)];
       llm_calls := calls |}
  else
    {| outcome := Done exit gated []; visited := log; llm_calls := calls |}.

(** The cycle generate_insights -> quality_check -> conditional edge.
    [regenerate] leads back to generate_insights; the two other labels
    leave the cycle. *)
Fixpoint generate_loop (fuel : nat) (state : AgentState) (calls : nat)
    (log : list (Node * AgentState)) : Run :=
  match fuel with
  | O => {| outcome := Looping state; visited := log; llm_calls := calls |}
  | S fuel' =>
      match generate_insights_node state calls with
      | (inl err, calls') =>
          {| outcome := Failed (LLMError err);
             visited := log ++ [(generate_insights, state)];
             llm_calls := calls' |}
      | (inr u, calls') =>
          let generated := apply_update state u in
          let gated := apply_update generated (quality_gate generated) in
          let log' := log ++ [(generate_insights, generated);
                              (quality_check, gated)] in
          match _should_continue gated with
          | label_regenerate => generate_loop fuel' gated calls' log'
          | exit => leave exit gated calls' log'
          end
      end
  end.

(** One pass through the cycle that leaves it whatever the label: what
    [generate_loop] amounts to when the edge never answers
    [regenerate]. *)
Definition single_pass (state : AgentState) (calls : nat)
    (log : list (Node * AgentState)) : Run :=
  match generate_insights_node state calls with
  | (inl err, calls') =>
      {| outcome := Failed (LLMError err);
         visited := log ++ [(generate_insights, state)];
         llm_calls := calls' |}
  | (inr u, calls') =>
      let generated := apply_update state u in
      let gated := apply_update generated (quality_gate generated) in
      leave (_should_continue gated) gated calls'
        (log ++ [(generate_insights, generated); (quality_check, gated)])
  end.

(** Modelled from the spec: the entry point of the agent is missing from
    the source (only its call [analytics_agent.generate_insights] is
    there).  Section 4.2 and scenario D: an empty batch is an
    [InputError], raised before any node runs. *)
Definition run_agent (fuel : nat) (metrics : list Metric) : Run :=
  match metrics with
  | [] => {| outcome := Failed InputError; visited := []; llm_calls := 0 |}
  | _ =>
      let start := initial_state metrics in
      let analyzed := apply_update start (analyze_metrics_node start) in
      generate_loop fuel analyzed 0 [(analyze_metrics, analyzed)]
  end.

End Engine.

(** ** The API route *)

(** A row of the insights table. *)
Record Insight := {
  insight_text : string;
  insight_confidence : float;
  insight_type : InsightType;
  metric_id : Z
}.

(** What the route does with the agent's result; [Pending] stands for a
    run the model has not seen the end of. *)
Inductive Response : Type :=
| Stored (rows : list Insight)
| HTTPException (status_code : Z)
| Pending.

(** [generate_insights_for_metric]: any exception of the agent becomes a
    500; otherwise one row per returned insight is added to the session. *)
Definition generate_insights_for_metric (metric : Z) (agent_result : Run) : Response :=
  match outcome agent_result with
  | Failed _ => HTTPException 500
  | Looping _ => Pending
  | Done _ _ records =>
      Stored ((fun insight_data =>
                 {| insight_text := text insight_data;
                    insight_confidence := confidence insight_data;
                    insight_type := type insight_data;
                    metric_id := metric |}) <$> records)
  end.

Definition stored_rows (r : Response) : list Insight :=
  match r with Stored rows => rows | _ => [] end.

(** ** Vocabulary of the statements *)

(** The two leaving labels seen as one: [continue] read as [end]. *)
Definition as_accept (l : RoutingLabel) : RoutingLabel :=
  match l with
  | label_continue => label_end
  | other => other
  end.

(** The flag [_should_continue] reads from the state. *)
Definition quality_acceptable (state : AgentState) : bool :=
  Py.truthy (Py.get (current_analysis state) "quality_acceptable" (Py.PyBool false)).

(** A later state keeps every insight of an earlier one, in place. *)
Definition keeps_insights (earlier later : AgentState) : Prop :=
  insights earlier `prefix_of` insights later.

(** The states of a run in order, from the initial one. *)
Definition states_of (metrics : list Metric) (r : Run) : list AgentState :=
  initial_state metrics :: (snd <$> visited r).

(** The first test of [_calculate_confidence]: [avg_length > 50]. *)
Definition long_enough (T : InsightTests) (insights : list string) : bool :=
  PrimFloat.ltb 50%float (avg_length T insights).

(** The value of [confidence] when [_calculate_confidence] reaches its
    [return], before [min] is applied. *)
Definition confidence_before_min (T : InsightTests) (insights : list string)
    : float :=
  let confidence := 0.5%float in
  let confidence :=
    if PrimFloat.ltb 50%float (avg_length T insights)
    then (confidence + 0.2)%float else confidence in
  let confidence :=
    if has_numbers T insights then (confidence + 0.1)%float else confidence in
  if has_action_words T insights then (confidence + 0.2)%float else confidence.

(** Tests with fixed answers. *)
Definition fixed_tests (long numbers action : bool) : InsightTests :=
  {| avg_length := fun _ => if long then 80%float else 20%float;
     has_numbers := fun _ => numbers;
     has_action_words := fun _ => action |}.

(** *** Sample data *)

Definition sample_state (flag : bool) (c : float) : AgentState :=
  {| messages := []; metrics_data := []; insights := [];
     current_analysis := {[ "quality_acceptable"%string := Py.PyBool flag ]};
     confidence_score := c |}.

Definition sample_metric (i : Z) (v : Q) (cat : string) : Metric :=
  {| id := i; name := "metric"; value := v; category := cat; description := None |}.

(** The batch of scenario A. *)
Definition scenario_A_batch : list Metric :=
  [ sample_metric 1 10 "sales"; sample_metric 2 20 "sales";
    sample_metric 3 30 "marketing" ].

(** A collaborator that always answers, and one that always times out. *)
Definition steady_llm (n : nat) (prompt : string) : LLMFailure + string :=
  inr "Sales are flat"%string.

Definition dead_llm (n : nat) (prompt : string) : LLMFailure + string :=
  inl timeout.

Definition one_insight (response : string) : list string := [response].

Definition fixed_prompt (analysis : gmap string Py.value) : string :=
  "analyze the following metrics"%string.

(** A quality gate that scores every generation [0.3]. *)
Definition low_gate (state : AgentState) : Update :=
  {| u_messages := None; u_metrics_data := None; u_insights := None;
     u_current_analysis := None; u_confidence_score := Some 0.3%float |}.

Definition always_observation (s : string) : InsightType := observation.

(** The edge map of section 4.5, and the one the diagram suggests. *)
Definition all_through_format (l : RoutingLabel) : bool := true.

Definition only_continue_formats (l : RoutingLabel) : bool :=
  RoutingLabel_eqb l label_continue.

Definition never_acceptable (state : AgentState) (c : float) : Py.value :=
  Py.PyBool false.

(** *** The Router of the specification *)




(** * The dashboard front end *)

(** ** JavaScript numbers *)

(** [ToBoolean] on a number: [0], [-0] and [NaN] are falsy. *)
Definition js_truthy (x : float) : bool :=
  negb (PrimFloat.eqb x 0%float) && PrimFloat.eqb x x.

(** [Math.round(x)]: the integer closest to [x], ties toward +infinity;
    [NaN], the infinities and integers are returned as they are, and a
    result of zero keeps the sign of [x].  Computed exactly from the
    mantissa and exponent of the double. *)
Definition Math_round (x : float) : float :=
  match Prim2SF x with
  | S754_finite s m e =>
      if (0 <=? e)%Z then x
      else
        let num := if s then Z.neg m else Z.pos m in
        let n := ((2 * num + 2 ^ (- e)) / 2 ^ (- e + 1))%Z in
        if (n =? 0)%Z then (if s then PrimFloat.opp 0%float else 0%float)
        else if (n <? 0)%Z
             then PrimFloat.opp (PrimFloat.of_uint63 (Uint63.of_Z (- n)))
             else PrimFloat.of_uint63 (Uint63.of_Z n)
  | _ => x
  end.

(** [Math.round(confidence * 100)], the number both components print
    before "% confidence". *)
Definition confidence_percent (confidence : float) : float :=
  Math_round (confidence * 100)%float.

(** What a JSX expression in braces contributes: nothing ([undefined],
    [null], booleans), a number printed as text, or an element. *)
Inductive Child (E : Type) : Type :=
| child_nothing
| child_number (n : float)
| child_element (e : E).
Arguments child_nothing {E}.
Arguments child_number {E} n.
Arguments child_element {E} e.

(** ** Button *)

Module Button.

(** [disabled={disabled || loading}] *)
Definition disabled_attr (disabled loading : bool) : bool :=
  disabled || loading.

End Button.

(** ** MetricCard *)

Module MetricCard.

Inductive Trend : Set := up | down | stable.

Record Props := {
  name : string;
  value : float;
  category : string;
  description : option string;
  trend : option Trend;
  confidence : option float
}.

Section FormatValue.

(** [Number.prototype.toFixed]. *)
Variable toFixed : float -> nat -> string.

(** [const formatValue = (val: number) => ...] *)
Definition formatValue (val : float) : string :=
  if PrimFloat.leb 1000000%float val then
    String.append (toFixed (val / 1000000)%float 1) "M"
  else if PrimFloat.leb 1000%float val then
    String.append (toFixed (val / 1000)%float 1) "K"
  else
    toFixed val 2.

End FormatValue.

(** [const getTrendColor = (trend?: string) => ...] *)
Definition getTrendColor (trend : option Trend) : string :=
  match trend with
  | Some up => "text-success-600"
  | Some down => "text-error-600"
  | _ => "text-neutral-600"
  end.

(** [{confidence && (<span>{Math.round(confidence * 100)}% confidence</span>)}]:
    the element carries the percentage it prints. *)
Definition confidence_badge (confidence : option float) : Child float :=
  match confidence with
  | None => child_nothing
  | Some c =>
      if js_truthy c then child_element (confidence_percent c)
      else child_number c
  end.

End MetricCard.

(** ** InsightPanel *)

Module InsightPanel.

(** [interface Insight] of the front end. *)
Record Insight := {
  id : Z;
  text : string;
  type : InsightType;
  confidence : float;
  created_at : string
}.

(** The string of each member of the [type] union. *)
Definition type_string (t : InsightType) : string :=
  match t with
  | trend => "trend"
  | risk => "risk"
  | opportunity => "opportunity"
  | recommendation => "recommendation"
  | observation => "observation"
  end.

(** [const getInsightTypeColor = (type: string) => ...] *)
Definition getInsightTypeColor (type : string) : string :=
  if String.eqb type "trend" then
    "bg-primary-100 text-primary-800 border-primary-200"
  else if String.eqb type "risk" then
    "bg-error-100 text-error-800 border-error-200"
  else if String.eqb type "opportunity" then
    "bg-accent-100 text-accent-800 border-accent-200"
  else if String.eqb type "recommendation" then
    "bg-warning-100 text-warning-800 border-warning-200"
  else
    "bg-neutral-100 text-neutral-800 border-neutral-200".

(** One entry of the list: badge style, percentage and text. *)
Record Item := {
  item_style : string;
  item_percent : float;
  item_text : string
}.

(** The three things the panel can show. *)
Inductive View : Type :=
| skeleton
| no_insights
| listing (count : nat) (items : list Item).

(** [const InsightPanel = ({ insights, loading = false }) => ...] *)
Definition render (insights : list Insight) (loading : bool) : View :=
  if loading then skeleton
  else
    match insights with
    | [] => no_insights
    | _ =>
        listing (length insights)
          ((fun insight =>
              {| item_style := getInsightTypeColor (type_string (type insight));
                 item_percent := confidence_percent (confidence insight);
                 item_text := text insight |}) <$> insights)
    end.

End InsightPanel.

(** ** The dashboard page *)

Module Dashboard.

(** [interface Metric] of the page. *)
Record Metric := {
  id : Z;
  name : string;
  value : float;
  category : string;
  description : option string;
  timestamp : string;
  created_at : string;
  updated_at : option string
}.

(** The five [useState] variables. *)
Record State := {
  metrics : list Metric;
  insights : list InsightPanel.Insight;
  loading : bool;
  insightsLoading : bool;
  error : option string
}.

(** The requests of the page: the two GETs, each either issued on its own
    or awaited inside the handler of a POST, and the two POSTs. *)
Inductive Request : Set :=
| GET_metrics
| GET_metrics_in_refresh
| GET_insights
| GET_insights_in_generate
| POST_refresh
| POST_generate.

(** How many requests of each kind await their response. *)
Record InFlight := {
  n_GET_metrics : nat;
  n_GET_metrics_in_refresh : nat;
  n_GET_insights : nat;
  n_GET_insights_in_generate : nat;
  n_POST_refresh : nat;
  n_POST_generate : nat
}.

(** The page: its React state and the requests it has in flight. *)
Record Page := {
  state : State;
  in_flight : InFlight
}.

Definition pending (req : Request) (f : InFlight) : nat :=
  match req with
  | GET_metrics => n_GET_metrics f
  | GET_metrics_in_refresh => n_GET_metrics_in_refresh f
  | GET_insights => n_GET_insights f
  | GET_insights_in_generate => n_GET_insights_in_generate f
  | POST_refresh => n_POST_refresh f
  | POST_generate => n_POST_generate f
  end.

Definition with_pending (req : Request) (n : nat) (f : InFlight) : InFlight :=
  match req with
  | GET_metrics =>
      {| n_GET_metrics := n;
         n_GET_metrics_in_refresh := n_GET_metrics_in_refresh f;
         n_GET_insights := n_GET_insights f;
         n_GET_insights_in_generate := n_GET_insights_in_generate f;
         n_POST_refresh := n_POST_refresh f;
         n_POST_generate := n_POST_generate f |}
  | GET_metrics_in_refresh =>
      {| n_GET_metrics := n_GET_metrics f;
         n_GET_metrics_in_refresh := n;
         n_GET_insights := n_GET_insights f;
         n_GET_insights_in_generate := n_GET_insights_in_generate f;
         n_POST_refresh := n_POST_refresh f;
         n_POST_generate := n_POST_generate f |}
  | GET_insights =>
      {| n_GET_metrics := n_GET_metrics f;
         n_GET_metrics_in_refresh := n_GET_metrics_in_refresh f;
         n_GET_insights := n;
         n_GET_insights_in_generate := n_GET_insights_in_generate f;
         n_POST_refresh := n_POST_refresh f;
         n_POST_generate := n_POST_generate f |}
  | GET_insights_in_generate =>
      {| n_GET_metrics := n_GET_metrics f;
         n_GET_metrics_in_refresh := n_GET_metrics_in_refresh f;
         n_GET_insights := n_GET_insights f;
         n_GET_insights_in_generate := n;
         n_POST_refresh := n_POST_refresh f;
         n_POST_generate := n_POST_generate f |}
  | POST_refresh =>
      {| n_GET_metrics := n_GET_metrics f;
         n_GET_metrics_in_refresh := n_GET_metrics_in_refresh f;
         n_GET_insights := n_GET_insights f;
         n_GET_insights_in_generate := n_GET_insights_in_generate f;
         n_POST_refresh := n;
         n_POST_generate := n_POST_generate f |}
  | POST_generate =>
      {| n_GET_metrics := n_GET_metrics f;
         n_GET_metrics_in_refresh := n_GET_metrics_in_refresh f;
         n_GET_insights := n_GET_insights f;
         n_GET_insights_in_generate := n_GET_insights_in_generate f;
         n_POST_refresh := n_POST_refresh f;
         n_POST_generate := n |}
  end.

(** [await fetch(...)]: the request leaves. *)
Definition send (req : Request) (p : Page) : Page :=
  {| state := state p;
     in_flight := with_pending req (S (pending req (in_flight p))) (in_flight p) |}.

(** The response of one pending request is taken. *)
Definition receive (req : Request) (p : Page) : Page :=
  {| state := state p;
     in_flight := with_pending req (Nat.pred (pending req (in_flight p))) (in_flight p) |}.

(** The setters of the hooks. *)
Definition setMetrics (data : list Metric) (p : Page) : Page :=
  {| state := {| metrics := data; insights := insights (state p);
                 loading := loading (state p);
                 insightsLoading := insightsLoading (state p);
                 error := error (state p) |};
     in_flight := in_flight p |}.

Definition setInsights (data : list InsightPanel.Insight) (p : Page) : Page :=
  {| state := {| metrics := metrics (state p); insights := data;
                 loading := loading (state p);
                 insightsLoading := insightsLoading (state p);
                 error := error (state p) |};
     in_flight := in_flight p |}.

Definition setLoading (b : bool) (p : Page) : Page :=
  {| state := {| metrics := metrics (state p); insights := insights (state p);
                 loading := b;
                 insightsLoading := insightsLoading (state p);
                 error := error (state p) |};
     in_flight := in_flight p |}.

Definition setInsightsLoading (b : bool) (p : Page) : Page :=
  {| state := {| metrics := metrics (state p); insights := insights (state p);
                 loading := loading (state p);
                 insightsLoading := b;
                 error := error (state p) |};
     in_flight := in_flight p |}.

Definition setError (message : string) (p : Page) : Page :=
  {| state := {| metrics := metrics (state p); insights := insights (state p);
                 loading := loading (state p);
                 insightsLoading := insightsLoading (state p);
                 error := Some message |};
     in_flight := in_flight p |}.

(** What [catch (err)] receives: an [Error] with its message, or any
    other value. *)
Inductive Thrown : Set :=
| error_object (message : string)
| other_value.

(** [err instanceof Error ? err.message : 'An error occurred'] *)
Definition catch_message (err : Thrown) : string :=
  match err with
  | error_object message => message
  | other_value => "An error occurred"
  end.

(** How an awaited exchange ends: a response with [ok] and a body that
    parses, a response without [ok], or a rejection of [fetch] or of
    [response.json()]. *)
Inductive Fetched (A : Type) : Type :=
| fetched_ok (data : A)
| fetched_not_ok
| fetched_throw (err : Thrown).
Arguments fetched_ok {A} data.
Arguments fetched_not_ok {A}.
Arguments fetched_throw {A} err.

(** [fetchMetrics] up to its [await]; [req] tells who called it. *)
Definition fetchMetrics (req : Request) (p : Page) : Page :=
  send req (setLoading true p).

(** [fetchMetrics] from the response to the end of its [finally]. *)
Definition fetchMetrics_resume (r : Fetched (list Metric)) (p : Page) : Page :=
  setLoading false
    match r with
    | fetched_ok data => setMetrics data p
    | fetched_not_ok => setError "Failed to fetch metrics" p
    | fetched_throw err => setError (catch_message err) p
    end.

Definition fetchInsights (req : Request) (p : Page) : Page :=
  send req (setInsightsLoading true p).

Definition fetchInsights_resume (r : Fetched (list InsightPanel.Insight))
    (p : Page) : Page :=
  setInsightsLoading false
    match r with
    | fetched_ok data => setInsights data p
    | fetched_not_ok => setError "Failed to fetch insights" p
    | fetched_throw err => setError (catch_message err) p
    end.

(** [generateInsights] up to the [await] of its POST. *)
Definition generateInsights (p : Page) : Page :=
  send POST_generate (setInsightsLoading true p).

(** [generateInsights] from the response of the POST: on success it calls
    [fetchInsights] and awaits it; otherwise [catch] and [finally] run. *)
Definition generateInsights_resume (r : Fetched unit) (p : Page) : Page :=
  match r with
  | fetched_ok _ => fetchInsights GET_insights_in_generate p
  | fetched_not_ok =>
      setInsightsLoading false (setError "Failed to generate insights" p)
  | fetched_throw err =>
      setInsightsLoading false (setError (catch_message err) p)
  end.

(** The end of [generateInsights]: the awaited [fetchInsights] finishes,
    then the [finally] of [generateInsights] runs. *)
Definition generateInsights_finish (r : Fetched (list InsightPanel.Insight))
    (p : Page) : Page :=
  setInsightsLoading false (fetchInsights_resume r p).

Definition refreshMetrics (p : Page) : Page :=
  send POST_refresh (setLoading true p).

Definition refreshMetrics_resume (r : Fetched unit) (p : Page) : Page :=
  match r with
  | fetched_ok _ => fetchMetrics GET_metrics_in_refresh p
  | fetched_not_ok =>
      setLoading false (setError "Failed to refresh metrics" p)
  | fetched_throw err =>
      setLoading false (setError (catch_message err) p)
  end.

Definition refreshMetrics_finish (r : Fetched (list Metric)) (p : Page) : Page :=
  setLoading false (fetchMetrics_resume r p).

(** The page before its effect runs: the defaults of the hooks. *)
Definition initial : Page :=
  {| state := {| metrics := []; insights := []; loading := true;
                 insightsLoading := false; error := None |};
     in_flight := {| n_GET_metrics := 0; n_GET_metrics_in_refresh := 0;
                     n_GET_insights := 0; n_GET_insights_in_generate := 0;
                     n_POST_refresh := 0; n_POST_generate := 0 |} |}.

(** [useEffect(() => { fetchMetrics(); fetchInsights(); }, [])] *)
Definition mounted : Page :=
  fetchInsights GET_insights (fetchMetrics GET_metrics initial).

(** *** What the page renders *)

Inductive MetricsSection : Type :=
| metrics_skeleton
| metrics_empty
| metrics_cards (cards : list MetricCard.Props).

Inductive View : Type :=
| error_view (message : string)
| main_view (refresh_disabled generate_disabled : bool)
    (section : MetricsSection) (panel : InsightPanel.View).

(** The props each [MetricCard] of the grid gets. *)
Definition card_of (metric : Metric) : MetricCard.Props :=
  {| MetricCard.name := name metric;
     MetricCard.value := value metric;
     MetricCard.category := category metric;
     MetricCard.description := description metric;
     MetricCard.trend := None;
     MetricCard.confidence := Some 0.8%float |}.

(** The body of [Dashboard] after the hooks: [if (error)] first (an empty
    message is falsy), then the page with its two header buttons, the
    metrics section and the insight panel. *)
Definition render (s : State) : View :=
  match error s with
  | Some (String c rest) => error_view (String c rest)
  | _ =>
      main_view
        (Button.disabled_attr (loading s) (loading s))
        (Button.disabled_attr (insightsLoading s) (insightsLoading s))
        (if loading s then metrics_skeleton
         else match metrics s with
              | [] => metrics_empty
              | _ => metrics_cards (card_of <$> metrics s)
              end)
        (InsightPanel.render (insights s) (insightsLoading s))
  end.

(** *** Events *)

(** One task of the event loop: a click on a button of the page, or the
    arrival of the response to a pending request. *)
Inductive Event : Type :=
| click_refresh_metrics
| click_generate_insights
| click_try_again
| metrics_arrived (in_refresh : bool) (r : Fetched (list Metric))
| insights_arrived (in_generate : bool) (r : Fetched (list InsightPanel.Insight))
| refresh_arrived (r : Fetched unit)
| generate_arrived (r : Fetched unit).

Definition request_of (ev : Event) : option Request :=
  match ev with
  | metrics_arrived false _ => Some GET_metrics
  | metrics_arrived true _ => Some GET_metrics_in_refresh
  | insights_arrived false _ => Some GET_insights
  | insights_arrived true _ => Some GET_insights_in_generate
  | refresh_arrived _ => Some POST_refresh
  | generate_arrived _ => Some POST_generate
  | _ => None
  end.

(** A click needs its button on the rendered page, not disabled: the
    header button or the one of the empty metrics section for a refresh;
    "Try Again" is the button of the error view.  A response needs a
    pending request. *)
Definition enabled (p : Page) (ev : Event) : bool :=
  match ev with
  | click_refresh_metrics =>
      match render (state p) with
      | main_view refresh_disabled _ section _ =>
          negb refresh_disabled ||
          match section with metrics_empty => true | _ => false end
      | error_view _ => false
      end
  | click_generate_insights =>
      match render (state p) with
      | main_view _ generate_disabled _ _ => negb generate_disabled
      | error_view _ => false
      end
  | click_try_again =>
      match render (state p) with
      | error_view _ => true
      | main_view _ _ _ _ => false
      end
  | _ =>
      match request_of ev with
      | Some req => (0 <? pending req (in_flight p))%nat
      | None => false
      end
  end.

(** What the handler of the event does until it awaits again or ends;
    "Try Again" reloads the page. *)
Definition fire (p : Page) (ev : Event) : Page :=
  match ev with
  | click_refresh_metrics => refreshMetrics p
  | click_generate_insights => generateInsights p
  | click_try_again => mounted
  | metrics_arrived false r => fetchMetrics_resume r (receive GET_metrics p)
  | metrics_arrived true r =>
      refreshMetrics_finish r (receive GET_metrics_in_refresh p)
  | insights_arrived false r => fetchInsights_resume r (receive GET_insights p)
  | insights_arrived true r =>
      generateInsights_finish r (receive GET_insights_in_generate p)
  | refresh_arrived r => refreshMetrics_resume r (receive POST_refresh p)
  | generate_arrived r => generateInsights_resume r (receive POST_generate p)
  end.

Definition step (p : Page) (ev : Event) : Page :=
  if enabled p ev then fire p ev else p.

Definition run (p : Page) (evs : list Event) : Page :=
  foldl step p evs.

(** *** Vocabulary of the statements *)

Definition metrics_requests (f : InFlight) : nat :=
  (n_GET_metrics f + n_GET_metrics_in_refresh f + n_POST_refresh f)%nat.

Definition insights_requests (f : InFlight) : nat :=
  (n_GET_insights f + n_GET_insights_in_generate f + n_POST_generate f)%nat.

(** Each loading flag is up exactly while one request of its side is
    pending, and never more than one is. *)
Definition flags_track_requests (p : Page) : Prop :=
  metrics_requests (in_flight p) = (if loading (state p) then 1 else 0)%nat /\
  insights_requests (in_flight p) =
    (if insightsLoading (state p) then 1 else 0)%nat.

Definition is_try_again (ev : Event) : bool :=
  match ev with click_try_again => true | _ => false end.

(** A page at rest, as after both initial fetches succeeded. *)
Definition loaded (ms : list Metric) (ins : list InsightPanel.Insight) : Page :=
  run mounted [metrics_arrived false (fetched_ok ms);
               insights_arrived false (fetched_ok ins)].

End Dashboard.

(** * Properties *)

(** ** Float order facts used by the routing proofs *)

Lemma SFleb_SFltb_finite (lo hi : positive) (e0 : Z) (x : spec_float) :
  (lo < hi)%positive ->
  SFleb (S754_finite false hi e0) x = true ->
  SFltb x (S754_finite false lo e0) = false.
Proof.
  intros Hlh. unfold SFleb, SFltb, SFcompare.
  destruct x as [s|s| |s m e]; try destruct s;
    try discriminate; try (intros _; exact eq_refl).
  fold (Pos.compare hi m). fold (Pos.compare m lo).
  destruct (Z.compare_spec e0 e) as [He|He|He].
  - subst e. rewrite Z.compare_refl.
    destruct (Pos.compare_spec hi m) as [H|H|H]; try discriminate; intros _;
      destruct (Pos.compare_spec m lo) as [E|E|E]; try exact eq_refl; lia.
  - intros _. destruct (Z.compare_spec e e0) as [E|E|E]; try exact eq_refl; lia.
  - discriminate.
Qed.

Lemma leb_07_not_ltb_05 (c : float) :
  PrimFloat.leb 0.7%float c = true -> PrimFloat.ltb c 0.5%float = false.
Proof.
  rewrite leb_spec, ltb_spec.
  apply SFleb_SFltb_finite. vm_compute. reflexivity.
Qed.

Lemma ltb_05_not_leb_07 (c : float) :
  PrimFloat.ltb c 0.5%float = true -> PrimFloat.leb 0.7%float c = false.
Proof.
  intros Hlt. destruct (PrimFloat.leb 0.7%float c) eqn:Hge; [|reflexivity].
  apply leb_07_not_ltb_05 in Hge. congruence.
Qed.

(** ** Routing *)

Lemma should_continue_unfold (state : AgentState) :
  _should_continue state =
    if quality_acceptable state && PrimFloat.leb 0.7%float (confidence_score state)
    then label_continue
    else if PrimFloat.ltb (confidence_score state) 0.5%float
         then label_regenerate else label_end.
Proof. reflexivity. Qed.

(** The label is [regenerate] exactly below one half. *)
Lemma should_continue_regenerate (state : AgentState) :
  _should_continue state = label_regenerate <->
  PrimFloat.ltb (confidence_score state) 0.5%float = true.
Proof.
  rewrite should_continue_unfold.
  destruct (PrimFloat.ltb (confidence_score state) 0.5%float) eqn:Hlt.
  - rewrite (ltb_05_not_leb_07 _ Hlt), andb_false_r. tauto.
  - destruct (_ && _); split; congruence.
Qed.

(** C1, as stated, fails: with the flag set and confidence 0.8 the edge
    answers [continue], where the three-rule list says [end]. *)
Lemma should_continue_differs_from_spec_decision :
  _should_continue (sample_state true 0.8%float) = label_continue /\
  spec_decision (confidence_score (sample_state true 0.8%float)) = label_end.
Proof. split; vm_compute; reflexivity. Qed.

(** C1 (amended): for every state the edge answers [continue] exactly when
    the [quality_acceptable] flag is truthy and confidence >= 0.7,
    [regenerate] exactly when confidence < 0.5, and [end] otherwise; so it
    equals the three-rule list once [continue] is read as [end], and
    equals it outright whenever the flag is not set. *)
Theorem should_continue_decision_list (state : AgentState) :
  let c := confidence_score state in
  (_should_continue state = label_continue <->
     quality_acceptable state = true /\ PrimFloat.leb 0.7%float c = true) /\
  (_should_continue state = label_regenerate <->
     PrimFloat.ltb c 0.5%float = true) /\
  (_should_continue state = label_end <->
     PrimFloat.ltb c 0.5%float = false /\
     (quality_acceptable state && PrimFloat.leb 0.7%float c) = false) /\
  as_accept (_should_continue state) = spec_decision c /\
  (quality_acceptable state = false -> _should_continue state = spec_decision c).
Proof.
  cbn zeta. split; [|split; [apply should_continue_regenerate|]].
  - rewrite should_continue_unfold, <- andb_true_iff.
    destruct (_ && _); [tauto|].
    destruct (PrimFloat.ltb _ _); split; congruence.
  - rewrite should_continue_unfold. unfold spec_decision.
    destruct (quality_acceptable state);
      destruct (PrimFloat.leb 0.7%float (confidence_score state)) eqn:Hge;
      cbn [andb];
      try rewrite (leb_07_not_ltb_05 _ Hge);
      destruct (PrimFloat.ltb (confidence_score state) 0.5%float) eqn:Hlt;
      cbn; repeat split; intros; try congruence; try tauto;
      try (destruct H; congruence).
Qed.

(** ** Confidence scoring *)

Ltac case_tests T insights :=
  unfold _calculate_confidence;
  destruct (PrimFloat.ltb 50%float (avg_length T insights));
  destruct (has_numbers T insights);
  destruct (has_action_words T insights).

(** Every score lies between one half and one. *)
Lemma calculate_confidence_range (T : InsightTests)
    (insights : list string) (analysis : gmap string Py.value) :
  let c := _calculate_confidence T insights analysis in
  PrimFloat.leb 0.5%float c = true /\ PrimFloat.leb c 1.0%float = true /\
  PrimFloat.leb 0.0%float c = true /\ PrimFloat.ltb c 0.5%float = false.
Proof. case_tests T insights; vm_compute; auto. Qed.

(** The values the score can take: eight outcomes of the tests, seven
    doubles. *)
Lemma calculate_confidence_values (T : InsightTests)
    (insights : list string) (analysis : gmap string Py.value) :
  _calculate_confidence T insights analysis ∈
    [0.5; 0.6; 0.7; 0.8; 0.7999999999999999; 0.8999999999999999; 1.0]%float.
Proof. case_tests T insights; vm_compute; set_solver. Qed.

(** C3: for every insight sequence the score of [_calculate_confidence]
    is the weighted heuristic of the specification: base 0.5, +0.2 when
    the average length exceeds 50, +0.1 for a number, +0.2 for an action
    word, clamped to [0.0, 1.0] on both sides. *)
Theorem calculate_confidence_is_spec_heuristic (T : InsightTests)
    (insights : list string) (analysis : gmap string Py.value) :
  _calculate_confidence T insights analysis = spec_confidence T insights.
Proof.
  unfold spec_confidence, weight_table. case_tests T insights; reflexivity.
Qed.

(** C4 (scenario B): when the state holds a single insight of 20
    characters with no digit and no action verb, the quality gate stores
    confidence 0.5 exactly and the edge answers [end], not [regenerate],
    whatever the [quality_acceptable] flag says. *)
Theorem scenario_B_mid_range_accepted (vocabulary : list string)
    (acceptable : AgentState -> float -> Py.value)
    (state : AgentState) (insight : string) :
  insights state = [insight] ->
  String.length insight = 20%nat ->
  string_exists is_digit insight = false ->
  existsb (contains insight) vocabulary = false ->
  let gated :=
    apply_update state (quality_check_node (spec_tests vocabulary) acceptable state) in
  confidence_score gated = 0.5%float /\
  _should_continue gated = label_end /\
  RoutingLabel_eqb (_should_continue gated) label_regenerate = false.
Proof.
  intros Hins Hlen Hdig Hverb gated.
  assert (Hc : confidence_score gated = 0.5%float).
  { subst gated. cbn. rewrite Hins. unfold _calculate_confidence. cbn.
    rewrite Hlen, Hdig. cbn.
    replace (existsb (fun word => contains insight word) vocabulary)
      with false by (symmetry; exact Hverb).
    reflexivity. }
  assert (He : _should_continue gated = label_end).
  { rewrite should_continue_unfold, Hc.
    replace (PrimFloat.leb 0.7%float 0.5%float) with false by reflexivity.
    rewrite andb_false_r. reflexivity. }
  rewrite He. auto.
Qed.

Lemma scenario_B_witness :
  let state :=
    {| messages := []; metrics_data := scenario_A_batch;
       insights := ["Revenue looks stable"%string];
       current_analysis := ∅; confidence_score := 0%float |} in
  let gated :=
    apply_update state
      (quality_check_node (spec_tests example_vocabulary) never_acceptable state) in
  confidence_score gated = 0.5%float /\
  _should_continue gated = label_end /\
  RoutingLabel_eqb (_should_continue gated) label_regenerate = false.
Proof.
  apply (scenario_B_mid_range_accepted example_vocabulary never_acceptable
           _ "Revenue looks stable"%string); reflexivity.
Defined.

(** ** The cycle under the scorer of the source *)

Lemma gated_confidence (T : InsightTests)
    (acceptable : AgentState -> float -> Py.value) (state : AgentState) :
  confidence_score (apply_update state (quality_check_node T acceptable state)) =
  _calculate_confidence T (insights state) (current_analysis state).
Proof. reflexivity. Qed.

Lemma scored_gate_never_regenerates (T : InsightTests)
    (acceptable : AgentState -> float -> Py.value) (state : AgentState) :
  _should_continue (apply_update state (quality_check_node T acceptable state))
    <> label_regenerate.
Proof.
  rewrite should_continue_regenerate, gated_confidence.
  destruct (calculate_confidence_range T (insights state) (current_analysis state))
    as (_ & _ & _ & Hlt).
  cbn zeta in Hlt. rewrite Hlt. discriminate.
Qed.

Section ScoredEngine.

Variable llm : nat -> string -> LLMFailure + string.
Variable transient_budget : nat.
Variable prompt_of : gmap string Py.value -> string.
Variable split_insights : string -> list string.
Variable classify : string -> InsightType.
Variable through_format : RoutingLabel -> bool.
Variable T : InsightTests.
Variable acceptable : AgentState -> float -> Py.value.

Local Abbreviation gate := (quality_check_node T acceptable).
Local Abbreviation loop :=
  (generate_loop llm transient_budget prompt_of split_insights gate classify
     through_format).
Local Abbreviation pass :=
  (single_pass llm transient_budget prompt_of split_insights gate classify
     through_format).
Local Abbreviation agent :=
  (run_agent llm transient_budget prompt_of split_insights gate classify
     through_format).

(** With the scorer of the source the cycle is left after one pass. *)
Lemma generate_loop_scored (fuel : nat) (state : AgentState) (calls : nat)
    (log : list (Node * AgentState)) :
  loop (S fuel) state calls log = pass state calls log.
Proof.
  unfold single_pass. cbn [generate_loop].
  destruct (generate_insights_node _ _ _ _ _ _) as [[err|u] calls']; [reflexivity|].
  cbn zeta.
  pose proof (scored_gate_never_regenerates T acceptable (apply_update state u)) as Hne.
  destruct (_should_continue (apply_update (apply_update state u)
                                (gate (apply_update state u)))) eqn:Hl;
    try reflexivity; congruence.
Qed.

Lemma leave_invocations (n : Node) (exit : RoutingLabel) (gated : AgentState)
    (calls : nat) (log : list (Node * AgentState)) :
  invocations n (leave classify through_format exit gated calls log) =
  (length (List.filter (fun e => Node_eqb (fst e) n) log) +
   if through_format exit && Node_eqb format_response n then 1 else 0)%nat.
Proof.
  unfold leave, invocations. destruct (through_format exit); cbn [visited andb].
  - rewrite List.filter_app, length_app. cbn [List.filter fst].
    destruct (Node_eqb format_response n); reflexivity.
  - lia.
Qed.

Lemma single_pass_generate_once (state : AgentState) (calls : nat)
    (log : list (Node * AgentState)) :
  invocations generate_insights (pass state calls log) =
  S (length (List.filter (fun e => Node_eqb (fst e) generate_insights) log)).
Proof.
  unfold single_pass.
  destruct (generate_insights_node _ _ _ _ _ _) as [[err|u] calls']; cbn zeta.
  - unfold invocations. cbn [visited].
    rewrite List.filter_app, length_app. cbn. lia.
  - rewrite leave_invocations, List.filter_app, length_app, andb_false_r.
    cbn. lia.
Qed.


(** On a non-empty batch the agent is one analysis followed by one pass. *)
Lemma run_agent_scored (fuel : nat) (first : Metric) (rest : list Metric) :
  agent (S fuel) (first :: rest) =
  let start := initial_state (first :: rest) in
  let analyzed := apply_update start (analyze_metrics_node start) in
  pass analyzed 0%nat [(analyze_metrics, analyzed)].
Proof. unfold run_agent. cbn zeta. apply generate_loop_scored. Qed.

End ScoredEngine.

(** A whole run on the batch of scenario A with a collaborator that
    answers one short insight: one call, one Generate, confidence 0.5,
    label [end]; the records depend on where the edge of [end] leads. *)
Example mid_range_run :
  let gate := quality_check_node (spec_tests example_vocabulary) never_acceptable in
  let r := run_agent steady_llm 0 fixed_prompt one_insight gate
             always_observation all_through_format 3 scenario_A_batch in
  let r' := run_agent steady_llm 0 fixed_prompt one_insight gate
              always_observation only_continue_formats 3 scenario_A_batch in
  (llm_calls r = 1%nat /\
   invocations generate_insights r = 1%nat /\
   records_of (outcome r) =
     [ {| text := "Sales are flat"; type := observation;
          confidence := 0.5%float |} ]) /\
  (invocations generate_insights r' = 1%nat /\
   invocations format_response r' = 0%nat /\
   records_of (outcome r') = []).
Proof. vm_compute. auto. Qed.

(** ** The edge keeps no count *)




(** C10: for every insight sequence the score is at least 0.5, so the
    test [confidence < 0.5] is false on it, the edge never answers
    [regenerate] on a state holding it, and an agent gated by this scorer
    never invokes Generate a second time. *)
Theorem scorer_never_triggers_regeneration (T : InsightTests)
    (insights : list string) (analysis : gmap string Py.value) :
  let c := _calculate_confidence T insights analysis in
  PrimFloat.leb 0.5%float c = true /\
  PrimFloat.ltb c 0.5%float = false /\
  (forall state : AgentState,
     confidence_score state = c -> _should_continue state <> label_regenerate) /\
  (forall (llm : nat -> string -> LLMFailure + string) (transient_budget : nat)
          (prompt_of : gmap string Py.value -> string)
          (split_insights : string -> list string)
          (classify : string -> InsightType)
          (through_format : RoutingLabel -> bool)
          (acceptable : AgentState -> float -> Py.value)
          (fuel : nat) (metrics : list Metric),
     (invocations generate_insights
        (run_agent llm transient_budget prompt_of split_insights
           (quality_check_node T acceptable) classify through_format
           fuel metrics) <= 1)%nat).
Proof.
  cbn zeta.
  destruct (calculate_confidence_range T insights analysis) as (Hge & _ & _ & Hlt).
  cbn zeta in Hge, Hlt. repeat split; try assumption.
  - intros state Hc. rewrite should_continue_regenerate, Hc, Hlt. discriminate.
  - intros llm b p s cls tf acc fuel metrics.
    destruct metrics as [|first rest]; [cbn; lia|].
    destruct fuel as [|fuel]; [cbn; lia|].
    rewrite run_agent_scored. cbn zeta.
    rewrite single_pass_generate_once. cbn. lia.
Qed.

(** ** The confidence field along a run *)

Lemma initial_confidence_kept_by_analysis (metrics : list Metric) :
  confidence_score
    (apply_update (initial_state metrics)
       (analyze_metrics_node (initial_state metrics))) = 0%float.
Proof. destruct metrics; reflexivity. Qed.

(** C5: for every insight sequence, the empty one included, the score
    lies in [0.0, 1.0]; and in every run of the agent gated by this
    scorer, the confidence field of every state, from the initial one on,
    lies in [0.0, 1.0]. *)
Theorem confidence_stays_in_unit_interval (T : InsightTests)
    (insights : list string) (analysis : gmap string Py.value) :
  in_unit_interval (_calculate_confidence T insights analysis) = true /\
  in_unit_interval (_calculate_confidence T [] analysis) = true /\
  (forall (llm : nat -> string -> LLMFailure + string) (transient_budget : nat)
          (prompt_of : gmap string Py.value -> string)
          (split_insights : string -> list string)
          (classify : string -> InsightType)
          (through_format : RoutingLabel -> bool)
          (acceptable : AgentState -> float -> Py.value)
          (fuel : nat) (metrics : list Metric),
     Forall (fun state => in_unit_interval (confidence_score state) = true)
       (states_of metrics
          (run_agent llm transient_budget prompt_of split_insights
             (quality_check_node T acceptable) classify through_format
             fuel metrics))).
Proof.
  assert (Hscore : forall l a, in_unit_interval (_calculate_confidence T l a) = true).
  { intros l a. unfold in_unit_interval.
    destruct (calculate_confidence_range T l a) as (_ & H1 & H0 & _).
    cbn zeta in H0, H1. rewrite H0, H1. reflexivity. }
  split; [apply Hscore|]. split; [apply Hscore|].
  intros llm b p s cls tf acc fuel metrics. unfold states_of.
  apply Forall_cons. split; [reflexivity|].
  destruct metrics as [|first rest]; [constructor|].
  destruct fuel as [|fuel].
  - cbn [run_agent generate_loop visited fmap list_fmap snd].
    repeat constructor.
  - rewrite run_agent_scored. cbn zeta.
    pose proof (initial_confidence_kept_by_analysis (first :: rest)) as Ha.
    unfold single_pass.
    destruct (generate_insights_node _ _ _ _ _ _) as [[err|u] calls'] eqn:Hg.
    + cbn [visited app fmap list_fmap snd]. repeat constructor; rewrite Ha; reflexivity.
    + assert (Hu : u_confidence_score u = None).
      { unfold generate_insights_node in Hg.
        destruct (call_llm _ _ _ _) as [[e|resp] c'];
          inversion Hg; reflexivity. }
      cbn zeta. unfold leave. destruct (tf _);
        cbn [visited app fmap list_fmap snd];
        repeat constructor;
        try (rewrite gated_confidence; apply Hscore);
        cbn [confidence_score apply_update]; rewrite Hu; reflexivity.
Qed.

(** ** The insights channel *)

Lemma keeps_insights_refl (state : AgentState) : keeps_insights state state.
Proof. unfold keeps_insights. reflexivity. Qed.

Lemma keeps_insights_trans (a b c : AgentState) :
  keeps_insights a b -> keeps_insights b c -> keeps_insights a c.
Proof. unfold keeps_insights. intros Hab Hbc. etransitivity; eassumption. Qed.

Lemma apply_update_keeps_insights (state : AgentState) (u : Update) :
  keeps_insights state (apply_update state u).
Proof.
  unfold keeps_insights. cbn. destruct (u_insights u) as [new|]; cbn.
  - apply prefix_app_r. reflexivity.
  - reflexivity.
Qed.

Lemma updates_keep_insights (us : list Update) (state : AgentState) :
  keeps_insights state (foldl apply_update state us).
Proof.
  revert state. induction us as [|u us IH]; intros state; cbn.
  - apply keeps_insights_refl.
  - eapply keeps_insights_trans; [apply apply_update_keeps_insights | apply IH].
Qed.

Lemma keeps_insights_snoc (l : list AgentState) (y : AgentState) :
  StronglySorted keeps_insights l ->
  Forall (fun s => keeps_insights s y) l ->
  StronglySorted keeps_insights (l ++ [y]) /\
  (forall z, keeps_insights y z -> Forall (fun s => keeps_insights s z) (l ++ [y])).
Proof.
  intros Hs Hy. split.
  - apply StronglySorted_app_2; [|assumption|repeat constructor].
    intros x1 x2 H1 H2. apply list_elem_of_singleton in H2. subst x2.
    rewrite Forall_forall in Hy. auto.
  - intros z Hz. apply Forall_app. split.
    + eapply Forall_impl; [exact Hy|]. cbn. intros s Hsy.
      eapply keeps_insights_trans; eassumption.
    + repeat constructor. assumption.
Qed.

(** Under the planned declaration without a reducer, a node that returns
    only its new insights drops the earlier ones. *)
Remark planned_state_replaces_insights :
  let state :=
    {| messages := []; metrics_data := []; insights := ["first"%string];
       current_analysis := ∅; confidence_score := 0%float |} in
  let u :=
    {| u_messages := None; u_metrics_data := None;
       u_insights := Some ["second"%string];
       u_current_analysis := None; u_confidence_score := None |} in
  insights (apply_update_planned state u) = ["second"%string] /\
  insights (apply_update state u) = ["first"; "second"]%string.
Proof. split; reflexivity. Qed.

Section AnyGate.

Variable llm : nat -> string -> LLMFailure + string.
Variable transient_budget : nat.
Variable prompt_of : gmap string Py.value -> string.
Variable split_insights : string -> list string.
Variable quality_gate : AgentState -> Update.
Variable classify : string -> InsightType.
Variable through_format : RoutingLabel -> bool.

Local Abbreviation loop :=
  (generate_loop llm transient_budget prompt_of split_insights quality_gate
     classify through_format).

Lemma generate_loop_keeps_insights (fuel : nat) (state : AgentState)
    (calls : nat) (log : list (Node * AgentState)) :
  StronglySorted keeps_insights (snd <$> log) ->
  Forall (fun s => keeps_insights s state) (snd <$> log) ->
  StronglySorted keeps_insights (snd <$> visited (loop fuel state calls log)).
Proof.
  revert state calls log.
  induction fuel as [|fuel IH]; intros state calls log Hs Hlog; [exact Hs|].
  cbn [generate_loop].
  destruct (generate_insights_node _ _ _ _ _ _) as [[err|u] calls'].
  - cbn [visited]. rewrite fmap_app. cbn [fmap list_fmap snd].
    apply keeps_insights_snoc; assumption.
  - cbn zeta.
    set (generated := apply_update state u).
    set (gated := apply_update generated (quality_gate generated)).
    assert (Hsg : keeps_insights state generated)
      by apply apply_update_keeps_insights.
    assert (Hgg : keeps_insights generated gated)
      by apply apply_update_keeps_insights.
    destruct (keeps_insights_snoc (snd <$> log) generated Hs) as [Hs1 Hf1].
    { eapply Forall_impl; [exact Hlog|]. cbn. intros s Hss.
      eapply keeps_insights_trans; eassumption. }
    destruct (keeps_insights_snoc _ gated Hs1 (Hf1 _ Hgg)) as [Hs2 Hf2].
    assert (Hlog' : (snd <$> (log ++ [(generate_insights, generated);
                                       (quality_check, gated)])) =
                    ((snd <$> log) ++ [generated]) ++ [gated]).
    { rewrite fmap_app, <- app_assoc. reflexivity. }
    assert (Hexit : forall exit,
              StronglySorted keeps_insights
                (snd <$> visited
                   (leave classify through_format exit gated calls'
                      (log ++ [(generate_insights, generated);
                               (quality_check, gated)])))).
    { intros exit. unfold leave. destruct (through_format exit); cbn [visited].
      - rewrite fmap_app, Hlog'. cbn [fmap list_fmap snd].
        apply keeps_insights_snoc; [exact Hs2|].
        apply Hf2, keeps_insights_refl.
      - rewrite Hlog'. exact Hs2. }
    destruct (_should_continue gated); try apply Hexit.
    apply IH; rewrite Hlog'; [exact Hs2|].
    apply Hf2, keeps_insights_refl.
Qed.

End AnyGate.

(** C6: the insights channel is append-only.  Whatever update a node
    returns, the new insights list has the old one as a prefix (so it is
    no shorter and every earlier insight stays at its index); the same
    holds across any sequence of updates; and in every run of the agent,
    under any quality gate, each state keeps the insights of every state
    before it. *)
Theorem insights_append_only :
  (forall (state : AgentState) (u : Update),
     insights state `prefix_of` insights (apply_update state u) /\
     (length (insights state) <= length (insights (apply_update state u)))%nat /\
     (forall (i : nat) (x : string),
        insights state !! i = Some x ->
        insights (apply_update state u) !! i = Some x)) /\
  (forall (state : AgentState) (us : list Update),
     insights state `prefix_of` insights (foldl apply_update state us) /\
     (length (insights state) <=
        length (insights (foldl apply_update state us)))%nat) /\
  (forall (llm : nat -> string -> LLMFailure + string) (transient_budget : nat)
          (prompt_of : gmap string Py.value -> string)
          (split_insights : string -> list string)
          (quality_gate : AgentState -> Update)
          (classify : string -> InsightType)
          (through_format : RoutingLabel -> bool)
          (fuel : nat) (metrics : list Metric),
     StronglySorted keeps_insights
       (states_of metrics
          (run_agent llm transient_budget prompt_of split_insights
             quality_gate classify through_format fuel metrics))).
Proof.
  split; [|split].
  - intros state u.
    pose proof (apply_update_keeps_insights state u) as H. unfold keeps_insights in H.
    split; [exact H|]. split; [apply prefix_length, H|].
    intros i x Hi. eapply prefix_lookup_Some; eassumption.
  - intros state us.
    pose proof (updates_keep_insights us state) as H. unfold keeps_insights in H.
    split; [exact H | apply prefix_length, H].
  - intros llm b p s gate cls tf fuel metrics. unfold states_of.
    apply StronglySorted_cons. split.
    + apply Forall_forall. intros st _. unfold keeps_insights. cbn.
      apply prefix_nil.
    + destruct metrics as [|first rest]; [constructor|].
      unfold run_agent. cbn zeta.
      apply generate_loop_keeps_insights; repeat constructor.
      apply keeps_insights_refl.
Qed.

(** ** Analyze *)

Lemma q_min_cases (a b : Q) :
  (q_min a b = a \/ q_min a b = b) /\ (q_min a b <= a)%Q /\ (q_min a b <= b)%Q.
Proof.
  unfold q_min. destruct (Qle_bool a b) eqn:H.
  - apply Qle_bool_iff in H. repeat split; auto. apply Qle_refl.
  - assert (Hlt : (b < a)%Q).
    { apply Qnot_le_lt. intros Hle. apply Qle_bool_iff in Hle. congruence. }
    repeat split; auto; [apply Qlt_le_weak, Hlt | apply Qle_refl].
Qed.

Lemma q_max_cases (a b : Q) :
  (q_max a b = a \/ q_max a b = b) /\ (a <= q_max a b)%Q /\ (b <= q_max a b)%Q.
Proof.
  unfold q_max. destruct (Qle_bool a b) eqn:H.
  - apply Qle_bool_iff in H. repeat split; auto. apply Qle_refl.
  - assert (Hlt : (b < a)%Q).
    { apply Qnot_le_lt. intros Hle. apply Qle_bool_iff in Hle. congruence. }
    repeat split; auto; [apply Qle_refl | apply Qlt_le_weak, Hlt].
Qed.

Lemma foldl_q_min_extreme (l : list Q) (x : Q) :
  foldl q_min x l ∈ x :: l /\
  Forall (fun v => (foldl q_min x l <= v)%Q) (x :: l).
Proof.
  revert x. induction l as [|y l IH]; intros x; cbn [foldl].
  - split; [apply elem_of_cons; tauto|]. repeat constructor. apply Qle_refl.
  - destruct (IH (q_min x y)) as [Hin Hall].
    destruct (q_min_cases x y) as (Hc & Hx & Hy).
    apply Forall_cons in Hall as [Hm Hl]. split.
    + rewrite !elem_of_cons. apply elem_of_cons in Hin as [Hin|Hin]; [|tauto].
      rewrite Hin. destruct Hc as [-> | ->]; tauto.
    + repeat (apply Forall_cons; split); try assumption;
        eapply Qle_trans; eassumption.
Qed.

Lemma foldl_q_max_extreme (l : list Q) (x : Q) :
  foldl q_max x l ∈ x :: l /\
  Forall (fun v => (v <= foldl q_max x l)%Q) (x :: l).
Proof.
  revert x. induction l as [|y l IH]; intros x; cbn [foldl].
  - split; [apply elem_of_cons; tauto|]. repeat constructor. apply Qle_refl.
  - destruct (IH (q_max x y)) as [Hin Hall].
    destruct (q_max_cases x y) as (Hc & Hx & Hy).
    apply Forall_cons in Hall as [Hm Hl]. split.
    + rewrite !elem_of_cons. apply elem_of_cons in Hin as [Hin|Hin]; [|tauto].
      rewrite Hin. destruct Hc as [-> | ->]; tauto.
    + repeat (apply Forall_cons; split); try assumption;
        eapply Qle_trans; eassumption.
Qed.

(** Scenario A of the specification. *)
Example scenario_A_analysis :
  match scenario_A_batch with
  | first :: rest => analyze first rest
  | [] => analyze (sample_metric 0 0 "none") []
  end =
  {| total_metrics := 3; categories := ["sales"; "marketing"]%string;
     value_min := 10; value_max := 30 |}.
Proof. reflexivity. Qed.

Lemma analysis_dict_lookups (a : Analysis) :
  analysis_dict a !! "total_metrics"%string = Some (Py.PyInt (total_metrics a)) /\
  analysis_dict a !! "categories"%string = Some (Py.PyStrs (categories a)) /\
  analysis_dict a !! "value_ranges"%string =
    Some (Py.PyRange (value_min a) (value_max a)) /\
  (forall key : string,
     key <> "total_metrics"%string -> key <> "categories"%string ->
     key <> "value_ranges"%string -> analysis_dict a !! key = None).
Proof.
  unfold analysis_dict. split; [apply lookup_insert_eq|].
  split; [rewrite lookup_insert_ne by discriminate; apply lookup_insert_eq|].
  split; [rewrite !lookup_insert_ne by discriminate; apply lookup_insert_eq|].
  intros key H1 H2 H3.
  rewrite !lookup_insert_ne by (intros Heq; symmetry in Heq; contradiction).
  apply lookup_empty.
Qed.

(** C7: on every non-empty batch, the analysis the Analyze step stores in
    the state holds, under [total_metrics], the batch length; under
    [categories], exactly the distinct categories of the batch, each once;
    under [value_ranges], a minimum and a maximum that occur among the
    values and bound all of them; and nothing else, whatever analysis was
    there before.  The step leaves the other keys of the state alone, it
    computes its result from the batch alone, and running it again on its
    own result changes nothing. *)
Theorem analyze_summary (first : Metric) (rest : list Metric) :
  let batch := first :: rest in
  let a := analyze first rest in
  total_metrics a = Z.of_nat (length batch) /\
  (value_min a ∈ (value <$> batch) /\
   Forall (fun v => (value_min a <= v)%Q) (value <$> batch)) /\
  (value_max a ∈ (value <$> batch) /\
   Forall (fun v => (v <= value_max a)%Q) (value <$> batch)) /\
  (NoDup (categories a) /\
   forall c : string, c ∈ categories a <-> c ∈ (category <$> batch)) /\
  (forall state : AgentState,
     metrics_data state = batch ->
     let once := apply_update state (analyze_metrics_node state) in
     (exists (cats : list string) (lo hi : Q),
        current_analysis once !! "total_metrics"%string =
          Some (Py.PyInt (Z.of_nat (length batch))) /\
        current_analysis once !! "categories"%string = Some (Py.PyStrs cats) /\
        current_analysis once !! "value_ranges"%string = Some (Py.PyRange lo hi) /\
        (NoDup cats /\
         forall c : string, c ∈ cats <-> c ∈ (category <$> batch)) /\
        (lo ∈ (value <$> batch) /\
         Forall (fun v => (lo <= v)%Q) (value <$> batch)) /\
        (hi ∈ (value <$> batch) /\
         Forall (fun v => (v <= hi)%Q) (value <$> batch))) /\
     (forall key : string,
        key <> "total_metrics"%string -> key <> "categories"%string ->
        key <> "value_ranges"%string -> current_analysis once !! key = None) /\
     (messages once = messages state /\ metrics_data once = metrics_data state /\
      insights once = insights state /\
      confidence_score once = confidence_score state) /\
     (forall state' : AgentState,
        metrics_data state' = batch ->
        current_analysis (apply_update state' (analyze_metrics_node state')) =
        current_analysis once) /\
     apply_update once (analyze_metrics_node once) = once).
Proof.
  cbn zeta.
  assert (Hmin := foldl_q_min_extreme (value <$> rest) (value first)).
  assert (Hmax := foldl_q_max_extreme (value <$> rest) (value first)).
  assert (Hcat : NoDup (categories (analyze first rest)) /\
                 forall c : string,
                   c ∈ categories (analyze first rest) <->
                   c ∈ (category <$> first :: rest)).
  { split; [apply NoDup_remove_dups|]. intros c. apply elem_of_remove_dups. }
  split; [reflexivity|].
  split; [exact Hmin|]. split; [exact Hmax|]. split; [exact Hcat|].
  intros state Hm.
  assert (Hstored :
            current_analysis (apply_update state (analyze_metrics_node state)) =
            analysis_dict (analyze first rest)).
  { unfold analyze_metrics_node. rewrite Hm. reflexivity. }
  destruct (analysis_dict_lookups (analyze first rest)) as (Ht & Hc & Hv & Hnone).
  split; [|split; [|split; [|split]]].
  - exists (categories (analyze first rest)),
           (value_min (analyze first rest)), (value_max (analyze first rest)).
    rewrite Hstored. repeat split; try assumption;
      first [apply Hmin | apply Hmax | apply Hcat].
  - intros key H1 H2 H3. rewrite Hstored. apply Hnone; assumption.
  - clear Hstored. unfold analyze_metrics_node.
    destruct state as [ms md ins ca cs]. cbn in Hm |- *. subst md. cbn.
    repeat split.
  - intros state' Hm'. rewrite Hstored.
    unfold analyze_metrics_node. rewrite Hm'. reflexivity.
  - unfold analyze_metrics_node. rewrite Hm. cbn. rewrite Hm.
    destruct state; cbn in *. subst. reflexivity.
Qed.

(** ** Failures *)

(** C8: on an empty batch the agent fails at once with InputError: no
    node is invoked (neither Analyze nor Generate), the collaborator is
    never called, no record is produced, and the route stores no row. *)
Theorem empty_batch_is_input_error
    (llm : nat -> string -> LLMFailure + string) (transient_budget : nat)
    (prompt_of : gmap string Py.value -> string)
    (split_insights : string -> list string)
    (quality_gate : AgentState -> Update) (classify : string -> InsightType)
    (through_format : RoutingLabel -> bool)
    (fuel : nat) (metric : Z) :
  let r := run_agent llm transient_budget prompt_of split_insights
             quality_gate classify through_format fuel [] in
  outcome r = Failed InputError /\
  visited r = [] /\
  invocations analyze_metrics r = 0%nat /\
  invocations generate_insights r = 0%nat /\
  llm_calls r = 0%nat /\
  records_of (outcome r) = [] /\
  generate_insights_for_metric metric r = HTTPException 500 /\
  stored_rows (generate_insights_for_metric metric r) = [].
Proof. cbn. repeat split. Qed.

Lemma call_llm_all_fail (llm : nat -> string -> LLMFailure + string)
    (Hfail : forall n prompt, exists cause, llm n prompt = inl cause)
    (retries calls : nat) (prompt : string) :
  exists cause, call_llm llm retries calls prompt = (inl cause, (calls + S retries)%nat).
Proof.
  revert calls. induction retries as [|retries IH]; intros calls; cbn [call_llm];
    destruct (Hfail calls prompt) as [cause Hc]; rewrite Hc.
  - exists cause. f_equal. lia.
  - destruct (IH (S calls)) as [cause' Hc']. exists cause'. rewrite Hc'.
    f_equal. lia.
Qed.

(** C9: when every call to the collaborator fails, a run on a non-empty
    batch ends with LLMError after the first call and its
    [transient_budget] retries; Format is never invoked, no record is
    produced, and the route answers 500 and stores no row. *)
Theorem dead_collaborator_is_llm_error
    (llm : nat -> string -> LLMFailure + string) (transient_budget : nat)
    (prompt_of : gmap string Py.value -> string)
    (split_insights : string -> list string)
    (quality_gate : AgentState -> Update) (classify : string -> InsightType)
    (through_format : RoutingLabel -> bool)
    (fuel : nat) (first : Metric) (rest : list Metric) (metric : Z) :
  (forall n prompt, exists cause, llm n prompt = inl cause) ->
  let r := run_agent llm transient_budget prompt_of split_insights
             quality_gate classify through_format (S fuel) (first :: rest) in
  (exists cause, outcome r = Failed (LLMError cause)) /\
  llm_calls r = S transient_budget /\
  invocations format_response r = 0%nat /\
  records_of (outcome r) = [] /\
  generate_insights_for_metric metric r = HTTPException 500 /\
  stored_rows (generate_insights_for_metric metric r) = [].
Proof.
  intros Hfail. cbn zeta. unfold run_agent. cbn zeta. cbn [generate_loop].
  unfold generate_insights_node.
  match goal with
  | |- context [call_llm llm ?b ?c ?p] =>
      destruct (call_llm_all_fail llm Hfail b c p) as [cause Hc]
  end.
  rewrite Hc. unfold generate_insights_for_metric. cbn.
  repeat split. exists cause. reflexivity.
Qed.

Lemma dead_collaborator_witness :
  (forall n prompt, exists cause, dead_llm n prompt = inl cause) /\
  let r := run_agent dead_llm 3 fixed_prompt one_insight low_gate
             always_observation all_through_format 5 scenario_A_batch in
  (exists cause, outcome r = Failed (LLMError cause)) /\
  llm_calls r = 4%nat /\
  invocations format_response r = 0%nat /\
  records_of (outcome r) = [] /\
  generate_insights_for_metric 7 r = HTTPException 500 /\
  stored_rows (generate_insights_for_metric 7 r) = [].
Proof.
  split.
  - intros n prompt. exists timeout. reflexivity.
  - apply (dead_collaborator_is_llm_error dead_llm 3 fixed_prompt one_insight
             low_gate always_observation all_through_format 4
             (sample_metric 1 10 "sales")
             [sample_metric 2 20 "sales"; sample_metric 3 30 "marketing"] 7).
    intros n prompt. exists timeout. reflexivity.
Defined.

(** * Further properties of the agent *)

(** ** The scorer *)

(** X1: the [min] of [_calculate_confidence] never cuts: in double
    arithmetic the base plus the weights of the passed tests never
    exceeds 1.0, so the score is the plain sum. *)
Theorem min_never_cuts (T : InsightTests)
    (insights : list string) (analysis : gmap string Py.value) :
  PrimFloat.ltb 1.0%float (confidence_before_min T insights) = false /\
  _calculate_confidence T insights analysis = confidence_before_min T insights.
Proof.
  unfold confidence_before_min. case_tests T insights; split; reflexivity.
Qed.

(** X2: passing more tests never lowers the score, and passing a
    different, larger set of tests raises it strictly, rounding
    included. *)
Theorem more_tests_higher_score (T T' : InsightTests)
    (insights insights' : list string) (analysis analysis' : gmap string Py.value) :
  implb (long_enough T insights) (long_enough T' insights') &&
  implb (has_numbers T insights) (has_numbers T' insights') &&
  implb (has_action_words T insights) (has_action_words T' insights') = true ->
  PrimFloat.leb (_calculate_confidence T insights analysis)
                (_calculate_confidence T' insights' analysis') = true /\
  ((long_enough T insights, has_numbers T insights, has_action_words T insights) <>
   (long_enough T' insights', has_numbers T' insights', has_action_words T' insights') ->
   PrimFloat.ltb (_calculate_confidence T insights analysis)
                 (_calculate_confidence T' insights' analysis') = true).
Proof.
  unfold long_enough, _calculate_confidence.
  destruct (PrimFloat.ltb 50%float (avg_length T insights));
    destruct (has_numbers T insights);
    destruct (has_action_words T insights);
    destruct (PrimFloat.ltb 50%float (avg_length T' insights'));
    destruct (has_numbers T' insights');
    destruct (has_action_words T' insights');
    cbn [implb andb]; intros Himp; try discriminate Himp;
    (split; [reflexivity | intros Hne; first [reflexivity | exfalso; apply Hne; reflexivity]]).
Qed.

Lemma more_tests_higher_score_witness :
  PrimFloat.leb
    (_calculate_confidence (fixed_tests true true false) [] ∅)
    (_calculate_confidence (fixed_tests true true true) [] ∅) = true /\
  ((long_enough (fixed_tests true true false) [],
    has_numbers (fixed_tests true true false) [],
    has_action_words (fixed_tests true true false) []) <>
   (long_enough (fixed_tests true true true) [],
    has_numbers (fixed_tests true true true) [],
    has_action_words (fixed_tests true true true) []) ->
   PrimFloat.ltb
     (_calculate_confidence (fixed_tests true true false) [] ∅)
     (_calculate_confidence (fixed_tests true true true) [] ∅) = true).
Proof.
  apply (more_tests_higher_score (fixed_tests true true false)
           (fixed_tests true true true) [] [] ∅ ∅).
  reflexivity.
Defined.

(** X3: the score reaches 0.7 exactly when the insights are long on
    average or hold an action word; a number alone never does.  So on a
    state holding a score the edge answers [continue] exactly when the
    flag is truthy and one of these two tests passed, and [end]
    otherwise. *)
Theorem continue_needs_length_or_action (T : InsightTests)
    (insights : list string) (analysis : gmap string Py.value) :
  let c := _calculate_confidence T insights analysis in
  PrimFloat.leb 0.7%float c =
    (long_enough T insights || has_action_words T insights) /\
  (forall state : AgentState,
     confidence_score state = c ->
     _should_continue state =
       if quality_acceptable state &&
          (long_enough T insights || has_action_words T insights)
       then label_continue else label_end).
Proof.
  cbn zeta.
  assert (Hge : PrimFloat.leb 0.7%float (_calculate_confidence T insights analysis) =
                (long_enough T insights || has_action_words T insights)).
  { unfold long_enough. case_tests T insights; reflexivity. }
  split; [exact Hge|].
  intros state Hc. rewrite should_continue_unfold, Hc, Hge.
  destruct (calculate_confidence_range T insights analysis) as (_ & _ & _ & Hlt).
  cbn zeta in Hlt. rewrite Hlt. reflexivity.
Qed.

(** ** More float order facts *)

Lemma SFcompare_nan_iff (x : spec_float) :
  SFeqb x x = false -> x = S754_nan.
Proof.
  unfold SFeqb, SFcompare.
  destruct x as [s|s| |s m e]; try destruct s; try discriminate; try reflexivity;
    rewrite Z.compare_refl; fold (Pos.compare m m); rewrite Pos.compare_refl;
    discriminate.
Qed.

(** [NaN] compares false with everything. *)
Lemma nan_compares_false (c y : float) :
  PrimFloat.eqb c c = false ->
  PrimFloat.leb y c = false /\ PrimFloat.ltb c y = false.
Proof.
  rewrite FloatAxioms.eqb_spec, leb_spec, ltb_spec. intros H.
  apply SFcompare_nan_iff in H. rewrite H.
  unfold SFleb, SFltb, SFcompare. destruct (Prim2SF y); auto.
Qed.

Lemma SFltb_SFleb_asym (x y : spec_float) :
  SFltb x y = true -> SFleb y x = false.
Proof.
  unfold SFltb, SFleb, SFcompare.
  destruct x as [s|s| |s m e], y as [s'|s'| |s' m' e'];
    try destruct s; try destruct s'; try discriminate; try reflexivity.
  - fold (Pos.compare m m'). fold (Pos.compare m' m).
    rewrite (Z.compare_antisym e e'), (Pos.compare_antisym m m').
    destruct (e ?= e')%Z; cbn; try discriminate; try reflexivity.
    destruct (m ?= m')%positive; cbn; try discriminate; reflexivity.
  - fold (Pos.compare m m'). fold (Pos.compare m' m).
    rewrite (Z.compare_antisym e e'), (Pos.compare_antisym m m').
    destruct (e ?= e')%Z; cbn; try discriminate; try reflexivity.
    destruct (m ?= m')%positive; cbn; try discriminate; reflexivity.
Qed.

Lemma ltb_not_leb (x y : float) :
  PrimFloat.ltb x y = true -> PrimFloat.leb y x = false.
Proof. rewrite ltb_spec, leb_spec. apply SFltb_SFleb_asym. Qed.

(** Below a smaller positive bound, below a larger one. *)
Lemma SFleb_finite_exp_mono (m1 m2 : positive) (e1 e2 : Z) (x : spec_float) :
  (e1 < e2)%Z ->
  SFleb (S754_finite false m2 e2) x = true ->
  SFleb (S754_finite false m1 e1) x = true.
Proof.
  intros He. unfold SFleb, SFcompare.
  destruct x as [s|s| |s m e]; try destruct s; try discriminate; try reflexivity.
  destruct (Z.compare_spec e2 e) as [H|H|H]; try discriminate; intros _;
    destruct (Z.compare_spec e1 e) as [H'|H'|H']; try reflexivity; lia.
Qed.

Lemma leb_million_leb_thousand (x : float) :
  PrimFloat.leb 1000000%float x = true -> PrimFloat.leb 1000%float x = true.
Proof.
  rewrite (leb_spec 1000000%float x), (leb_spec 1000%float x).
  apply SFleb_finite_exp_mono. reflexivity.
Qed.

Lemma SFltb_zero_not_SFleb_positive (m : positive) (e : Z) (x : spec_float) :
  SFltb x (S754_zero false) = true ->
  SFleb (S754_finite false m e) x = false.
Proof.
  unfold SFltb, SFleb, SFcompare.
  destruct x as [s|s| |s m' e']; try destruct s; try discriminate; reflexivity.
Qed.

Lemma negative_not_leb_thousand (x : float) :
  PrimFloat.ltb x 0%float = true -> PrimFloat.leb 1000%float x = false.
Proof.
  rewrite ltb_spec, leb_spec. apply SFltb_zero_not_SFleb_positive.
Qed.

(** ** The edge on unusual states *)

(** X4: without the key [quality_acceptable] in the analysis the edge
    never answers [continue], whatever the confidence; and on a confidence
    that is [NaN] it answers [end], whatever the flag. *)
Theorem should_continue_missing_flag_or_nan (state : AgentState) :
  (current_analysis state !! "quality_acceptable"%string = None ->
   _should_continue state <> label_continue) /\
  (PrimFloat.eqb (confidence_score state) (confidence_score state) = false ->
   _should_continue state = label_end).
Proof.
  split.
  - intros Hnone. unfold _should_continue, Py.get. rewrite Hnone. cbn.
    destruct (PrimFloat.ltb _ _); discriminate.
  - intros Hnan. rewrite should_continue_unfold.
    destruct (nan_compares_false _ 0.7%float Hnan) as [Hle _].
    destruct (nan_compares_false _ 0.5%float Hnan) as [_ Hlt].
    rewrite Hle, Hlt, andb_false_r. reflexivity.
Qed.

(** ** The channels of the state *)

(** X5: after any sequence of node updates, each reducer channel holds
    its initial list followed by the contributions of the updates in
    order, nothing dropped, repeated or reordered; each plain channel
    holds the last value written to it, or its initial value. *)
Theorem channels_after_updates (state : AgentState) (us : list Update) :
  let final := foldl apply_update state us in
  insights final =
    insights state ++ concat ((fun u => default [] (u_insights u)) <$> us) /\
  messages final =
    messages state ++ concat ((fun u => default [] (u_messages u)) <$> us) /\
  confidence_score final =
    default (confidence_score state) (last (omap u_confidence_score us)) /\
  current_analysis final =
    default (current_analysis state) (last (omap u_current_analysis us)) /\
  metrics_data final =
    default (metrics_data state) (last (omap u_metrics_data us)).
Proof.
  cbn zeta. induction us as [|u us IH] using rev_ind.
  - cbn. rewrite !app_nil_r. auto.
  - destruct IH as (Hi & Hm & Hc & Ha & Hd).
    rewrite foldl_app, !fmap_app, !concat_app, !omap_app, !app_assoc.
    cbn [foldl apply_update insights messages confidence_score
         current_analysis metrics_data fmap list_fmap concat omap list_omap].
    rewrite Hi, Hm, Hc, Ha, Hd, !app_nil_r.
    repeat split.
    + destruct (u_insights u); cbn; rewrite ?app_nil_r; reflexivity.
    + destruct (u_messages u); cbn; rewrite ?app_nil_r; reflexivity.
    + destruct (u_confidence_score u); cbn; rewrite ?last_snoc, ?app_nil_r; reflexivity.
    + destruct (u_current_analysis u); cbn; rewrite ?last_snoc, ?app_nil_r; reflexivity.
    + destruct (u_metrics_data u); cbn; rewrite ?last_snoc, ?app_nil_r; reflexivity.
Qed.

(** * Properties of the front end *)

(** ** MetricCard *)

Lemma SFltb_zero_truthy (x : spec_float) :
  SFltb (S754_zero false) x = true ->
  SFeqb x (S754_zero false) = false /\ SFeqb x x = true.
Proof.
  unfold SFltb, SFeqb, SFcompare.
  destruct x as [s|s| |s m e]; try destruct s; try discriminate; intros _;
    split; try reflexivity.
  rewrite Z.compare_refl. fold (Pos.compare m m). rewrite Pos.compare_refl.
  reflexivity.
Qed.

Lemma positive_is_truthy (c : float) :
  PrimFloat.ltb 0%float c = true -> js_truthy c = true.
Proof.
  unfold js_truthy. rewrite ltb_spec, !FloatAxioms.eqb_spec. intros H.
  apply SFltb_zero_truthy in H as [H0 Hc].
  change (Prim2SF 0%float) with (S754_zero false). rewrite H0, Hc. reflexivity.
Qed.

(** X6: [formatValue] abbreviates with "M" from one million on and with
    "K" from one thousand up to one million; every value below one
    thousand, so every negative value however large, and [NaN] are
    printed in full with two decimals. *)
Theorem formatValue_cases (toFixed : float -> nat -> string) (val : float) :
  (PrimFloat.leb 1000000%float val = true ->
   MetricCard.formatValue toFixed val =
     String.append (toFixed (val / 1000000)%float 1%nat) "M") /\
  (PrimFloat.leb 1000%float val = true ->
   PrimFloat.ltb val 1000000%float = true ->
   MetricCard.formatValue toFixed val =
     String.append (toFixed (val / 1000)%float 1%nat) "K") /\
  (PrimFloat.ltb val 1000%float = true \/ PrimFloat.ltb val 0%float = true \/
   PrimFloat.eqb val val = false ->
   MetricCard.formatValue toFixed val = toFixed val 2%nat).
Proof.
  unfold MetricCard.formatValue. repeat split.
  - intros ->. reflexivity.
  - intros Hk Hm. rewrite (ltb_not_leb _ _ Hm), Hk. reflexivity.
  - intros H.
    assert (Hk : PrimFloat.leb 1000%float val = false).
    { destruct H as [H|[H|H]].
      - apply ltb_not_leb, H.
      - apply negative_not_leb_thousand, H.
      - apply (nan_compares_false _ _ H). }
    destruct (PrimFloat.leb 1000000%float val) eqn:Hm.
    + apply leb_million_leb_thousand in Hm. congruence.
    + rewrite Hk. reflexivity.
Qed.

(** X7: the confidence badge of a card.  Without a confidence nothing is
    rendered; a positive confidence, so every score of the agent, renders
    the badge with its rounded percentage; a confidence of zero or [NaN]
    renders no badge but the bare number itself. *)
Theorem confidence_badge_cases :
  MetricCard.confidence_badge None = child_nothing /\
  (forall c : float,
     PrimFloat.ltb 0%float c = true ->
     MetricCard.confidence_badge (Some c) = child_element (confidence_percent c)) /\
  (forall c : float,
     PrimFloat.eqb c 0%float = true \/ PrimFloat.eqb c c = false ->
     MetricCard.confidence_badge (Some c) = child_number c) /\
  (forall (T : InsightTests) (insights : list string)
          (analysis : gmap string Py.value),
     MetricCard.confidence_badge (Some (_calculate_confidence T insights analysis)) =
     child_element (confidence_percent (_calculate_confidence T insights analysis))).
Proof.
  split; [reflexivity|]. split; [|split].
  - intros c Hc. unfold MetricCard.confidence_badge.
    rewrite (positive_is_truthy c Hc). reflexivity.
  - intros c [H|H]; unfold MetricCard.confidence_badge, js_truthy; rewrite H;
      cbn [negb andb]; rewrite ?andb_false_r; reflexivity.
  - intros T insights analysis. unfold MetricCard.confidence_badge.
    replace (js_truthy (_calculate_confidence T insights analysis)) with true;
      [reflexivity|].
    case_tests T insights; reflexivity.
Qed.

(** X8: the percentage printed for a score of the agent is exactly the
    nominal sum of the base and the weights of the passed tests, 50 + 20 +
    10 + 20 at most: the rounding errors of the score (as in
    0.7999999999999999) never show. *)
Theorem score_percent_is_nominal (T : InsightTests)
    (insights : list string) (analysis : gmap string Py.value) :
  confidence_percent (_calculate_confidence T insights analysis) =
  float_of_nat
    (50 + (if long_enough T insights then 20 else 0)
        + (if has_numbers T insights then 10 else 0)
        + (if has_action_words T insights then 20 else 0)) /\
  confidence_percent (_calculate_confidence T insights analysis) ∈
    [50; 60; 70; 80; 90; 100]%float.
Proof.
  unfold long_enough. case_tests T insights; split;
    first [reflexivity | vm_compute; set_solver].
Qed.

(** ** InsightPanel *)

(** X9: the five insight types get five different badge styles, and every
    other string is styled like an observation. *)
Theorem insight_type_styles :
  (forall t t' : InsightType,
     InsightPanel.getInsightTypeColor (InsightPanel.type_string t) =
     InsightPanel.getInsightTypeColor (InsightPanel.type_string t') ->
     t = t') /\
  (forall s : string,
     s <> "trend"%string -> s <> "risk"%string ->
     s <> "opportunity"%string -> s <> "recommendation"%string ->
     InsightPanel.getInsightTypeColor s =
     InsightPanel.getInsightTypeColor "observation").
Proof.
  split.
  - intros [] []; vm_compute; intros H; try reflexivity; discriminate H.
  - intros s H1 H2 H3 H4. unfold InsightPanel.getInsightTypeColor.
    apply String.eqb_neq in H1, H2, H3, H4. rewrite H1, H2, H3, H4.
    reflexivity.
Qed.

(** ** The dashboard page *)

Ltac page_cases p :=
  destruct p as [[ms ins l il e] [a b c d f g]];
  unfold Dashboard.flags_track_requests, Dashboard.metrics_requests,
    Dashboard.insights_requests in *;
  cbn [Dashboard.state Dashboard.in_flight Dashboard.loading
       Dashboard.insightsLoading Dashboard.n_GET_metrics
       Dashboard.n_GET_metrics_in_refresh Dashboard.n_GET_insights
       Dashboard.n_GET_insights_in_generate Dashboard.n_POST_refresh
       Dashboard.n_POST_generate] in *.

Lemma step_keeps_flags (p : Dashboard.Page) (ev : Dashboard.Event) :
  Dashboard.flags_track_requests p ->
  Dashboard.flags_track_requests (Dashboard.step p ev).
Proof.
  intros H. unfold Dashboard.step.
  destruct (Dashboard.enabled p ev) eqn:Hen; [|exact H].
  page_cases p. destruct H as [Hm Hi].
  destruct ev as [| | |[] r|[] r|r|r]; cbn in Hen |- *.
  - destruct e as [[|ch msg]|]; destruct l; cbn in Hen;
      try discriminate; destruct il; cbn; lia.
  - destruct e as [[|ch msg]|]; destruct il; cbn in Hen;
      try discriminate; destruct l; cbn; lia.
  - cbn. lia.
  - destruct b; [discriminate|]. destruct r; destruct l, il; cbn in *; lia.
  - destruct a; [discriminate|]. destruct r; destruct l, il; cbn in *; lia.
  - destruct d; [discriminate|]. destruct r; destruct l, il; cbn in *; lia.
  - destruct c; [discriminate|]. destruct r; destruct l, il; cbn in *; lia.
  - destruct f; [discriminate|]. destruct r; destruct l, il; cbn in *; lia.
  - destruct g; [discriminate|]. destruct r; destruct l, il; cbn in *; lia.
Qed.

Lemma run_keeps_flags (evs : list Dashboard.Event) (p : Dashboard.Page) :
  Dashboard.flags_track_requests p ->
  Dashboard.flags_track_requests (Dashboard.run p evs).
Proof.
  revert p. induction evs as [|ev evs IH]; intros p H; [exact H|].
  apply IH, step_keeps_flags, H.
Qed.

(** X10: in every state the page can reach after mounting, whatever the
    clicks and responses, each loading flag is up exactly while one request
    of its side (the GET or the POST that leads to it) is pending; so never
    two refreshes or two generations run at once, and no spinner stays when
    nothing is pending. *)
Theorem loading_flags_track_requests (evs : list Dashboard.Event) :
  let p := Dashboard.run Dashboard.mounted evs in
  Dashboard.flags_track_requests p /\
  (Dashboard.n_POST_generate (Dashboard.in_flight p) <= 1)%nat /\
  (Dashboard.n_POST_refresh (Dashboard.in_flight p) <= 1)%nat /\
  (Dashboard.metrics_requests (Dashboard.in_flight p) +
   Dashboard.insights_requests (Dashboard.in_flight p) <= 2)%nat.
Proof.
  cbn zeta.
  assert (H : Dashboard.flags_track_requests (Dashboard.run Dashboard.mounted evs)).
  { apply run_keeps_flags. split; reflexivity. }
  split; [exact H|].
  destruct H as [Hm Hi].
  unfold Dashboard.metrics_requests, Dashboard.insights_requests in *.
  destruct (Dashboard.loading _), (Dashboard.insightsLoading _); lia.
Qed.

Lemma step_keeps_error (p : Dashboard.Page) (ev : Dashboard.Event) :
  Dashboard.is_try_again ev = false ->
  Dashboard.error (Dashboard.state p) <> None ->
  Dashboard.error (Dashboard.state (Dashboard.step p ev)) <> None.
Proof.
  intros Hev He. unfold Dashboard.step.
  destruct (Dashboard.enabled p ev); [|exact He].
  destruct ev as [| | |[] r|[] r|r|r]; try discriminate Hev;
    try destruct r; cbn; try exact He; discriminate.
Qed.

(** X11: no handler ever resets [error]: once a request has failed, the
    error stays set through every later click and response until the
    page is reloaded with "Try Again"; it is shown whenever its message is
    not empty, and while it is shown no refresh and no generation can be
    started. *)
Theorem error_is_sticky (p : Dashboard.Page) (evs : list Dashboard.Event) :
  Dashboard.error (Dashboard.state p) <> None ->
  existsb Dashboard.is_try_again evs = false ->
  let p' := Dashboard.run p evs in
  Dashboard.error (Dashboard.state p') <> None /\
  (forall (ch : Ascii.ascii) (rest : string),
     Dashboard.error (Dashboard.state p') = Some (String ch rest) ->
     Dashboard.render (Dashboard.state p') = Dashboard.error_view (String ch rest) /\
     Dashboard.step p' Dashboard.click_refresh_metrics = p' /\
     Dashboard.step p' Dashboard.click_generate_insights = p').
Proof.
  intros He Hevs. cbn zeta. split.
  - revert p He Hevs. induction evs as [|ev evs IH]; intros p He Hevs; [exact He|].
    cbn in Hevs. apply orb_false_iff in Hevs as [Hev Hevs].
    apply IH; [|exact Hevs]. apply step_keeps_error; assumption.
  - intros ch rest Herr.
    unfold Dashboard.step, Dashboard.enabled, Dashboard.render.
    rewrite Herr. auto.
Qed.

Lemma error_is_sticky_witness :
  let p := Dashboard.run Dashboard.mounted
             [Dashboard.metrics_arrived false Dashboard.fetched_not_ok] in
  let p' := Dashboard.run p
              [Dashboard.insights_arrived false (Dashboard.fetched_ok []);
               Dashboard.click_refresh_metrics] in
  Dashboard.error (Dashboard.state p') <> None /\
  (forall (ch : Ascii.ascii) (rest : string),
     Dashboard.error (Dashboard.state p') = Some (String ch rest) ->
     Dashboard.render (Dashboard.state p') = Dashboard.error_view (String ch rest) /\
     Dashboard.step p' Dashboard.click_refresh_metrics = p' /\
     Dashboard.step p' Dashboard.click_generate_insights = p').
Proof.
  apply (error_is_sticky
           (Dashboard.run Dashboard.mounted
              [Dashboard.metrics_arrived false Dashboard.fetched_not_ok])
           [Dashboard.insights_arrived false (Dashboard.fetched_ok []);
            Dashboard.click_refresh_metrics]).
  - vm_compute. discriminate.
  - reflexivity.
Defined.

(** X12: the lists the page shows change only when a GET succeeds: a
    click, the response of a POST and any failed response leave [metrics]
    and [insights] as they were, and a successful GET replaces its list
    by the data received (a reload apart). *)
Theorem data_changes_only_on_successful_get (p : Dashboard.Page)
    (ev : Dashboard.Event) :
  let p' := Dashboard.step p ev in
  (Dashboard.metrics (Dashboard.state p') = Dashboard.metrics (Dashboard.state p) \/
   (exists in_refresh data,
      ev = Dashboard.metrics_arrived in_refresh (Dashboard.fetched_ok data) /\
      Dashboard.metrics (Dashboard.state p') = data) \/
   ev = Dashboard.click_try_again) /\
  (Dashboard.insights (Dashboard.state p') = Dashboard.insights (Dashboard.state p) \/
   (exists in_generate data,
      ev = Dashboard.insights_arrived in_generate (Dashboard.fetched_ok data) /\
      Dashboard.insights (Dashboard.state p') = data) \/
   ev = Dashboard.click_try_again).
Proof.
  cbn zeta. unfold Dashboard.step.
  destruct (Dashboard.enabled p ev); [|split; left; reflexivity].
  destruct ev as [| | |[] r|[] r|r|r]; try destruct r; cbn;
    split;
    first [ left; reflexivity
          | right; left; do 2 eexists; split; reflexivity
          | right; right; reflexivity ].
Qed.

(** X13: a generation, start to end.  When the "Generate AI Insights"
    button can be clicked, a click, a successful POST and a successful GET
    leave the page exactly as it was with the received insights in place;
    a POST answered without [ok] instead sets the error "Failed to
    generate insights", starts no GET and keeps the old insights. *)
Theorem generate_insights_cycle (p : Dashboard.Page)
    (data : list InsightPanel.Insight) :
  Dashboard.enabled p Dashboard.click_generate_insights = true ->
  let done :=
    Dashboard.run p [Dashboard.click_generate_insights;
                     Dashboard.generate_arrived (Dashboard.fetched_ok tt);
                     Dashboard.insights_arrived true (Dashboard.fetched_ok data)] in
  let failed :=
    Dashboard.run p [Dashboard.click_generate_insights;
                     Dashboard.generate_arrived Dashboard.fetched_not_ok] in
  done = Dashboard.setInsights data p /\
  failed = Dashboard.setError "Failed to generate insights" p.
Proof.
  destruct p as [[ms ins l il e] [a b c d f g]].
  unfold Dashboard.enabled, Dashboard.render. cbn.
  destruct e as [[|ch msg]|]; destruct il; cbn; try discriminate; intros _;
    split; reflexivity.
Qed.

Lemma generate_insights_cycle_witness :
  let p := Dashboard.loaded [] [] in
  let done :=
    Dashboard.run p [Dashboard.click_generate_insights;
                     Dashboard.generate_arrived (Dashboard.fetched_ok tt);
                     Dashboard.insights_arrived true (Dashboard.fetched_ok [])] in
  let failed :=
    Dashboard.run p [Dashboard.click_generate_insights;
                     Dashboard.generate_arrived Dashboard.fetched_not_ok] in
  done = Dashboard.setInsights [] p /\
  failed = Dashboard.setError "Failed to generate insights" p.
Proof.
  apply (generate_insights_cycle (Dashboard.loaded [] []) []). reflexivity.
Defined.

(** X14: a refresh, start to end.  When a "Refresh Metrics" button can be
    clicked, a click, a successful POST and a successful GET leave the
    page exactly as it was with the received metrics in place; a POST
    answered without [ok] instead sets the error "Failed to refresh
    metrics", starts no GET and keeps the old metrics. *)
Theorem refresh_metrics_cycle (p : Dashboard.Page)
    (data : list Dashboard.Metric) :
  Dashboard.enabled p Dashboard.click_refresh_metrics = true ->
  let done :=
    Dashboard.run p [Dashboard.click_refresh_metrics;
                     Dashboard.refresh_arrived (Dashboard.fetched_ok tt);
                     Dashboard.metrics_arrived true (Dashboard.fetched_ok data)] in
  let failed :=
    Dashboard.run p [Dashboard.click_refresh_metrics;
                     Dashboard.refresh_arrived Dashboard.fetched_not_ok] in
  done = Dashboard.setMetrics data p /\
  failed = Dashboard.setError "Failed to refresh metrics" p.
Proof.
  destruct p as [[ms ins l il e] [a b c d f g]].
  unfold Dashboard.enabled, Dashboard.render. cbn.
  destruct e as [[|ch msg]|]; destruct l; cbn; try discriminate; intros _;
    split; reflexivity.
Qed.

Lemma refresh_metrics_cycle_witness :
  let p := Dashboard.loaded [] [] in
  let done :=
    Dashboard.run p [Dashboard.click_refresh_metrics;
                     Dashboard.refresh_arrived (Dashboard.fetched_ok tt);
                     Dashboard.metrics_arrived true (Dashboard.fetched_ok [])] in
  let failed :=
    Dashboard.run p [Dashboard.click_refresh_metrics;
                     Dashboard.refresh_arrived Dashboard.fetched_not_ok] in
  done = Dashboard.setMetrics [] p /\
  failed = Dashboard.setError "Failed to refresh metrics" p.
Proof.
  apply (refresh_metrics_cycle (Dashboard.loaded [] []) []). reflexivity.
Defined.

(** X15: the metric cards are rendered only when no error is shown and
    the page is not loading; then there is one card per metric, in order,
    and every card carries the badge "80% confidence", whatever the metric
    and whatever the agent scored. *)
Theorem cards_show_placeholder_confidence (s : Dashboard.State) :
  match Dashboard.render s with
  | Dashboard.main_view _ _ (Dashboard.metrics_cards cards) _ =>
      Dashboard.loading s = false /\
      cards = Dashboard.card_of <$> Dashboard.metrics s /\
      length cards = length (Dashboard.metrics s) /\
      Forall (fun card =>
                MetricCard.confidence_badge (MetricCard.confidence card) =
                child_element 80%float) cards
  | _ => True
  end.
Proof.
  unfold Dashboard.render.
  destruct (Dashboard.error s) as [[|ch msg]|];
    destruct (Dashboard.loading s); try exact I;
    destruct (Dashboard.metrics s) as [|m ms]; try exact I;
    (split; [reflexivity|]); (split; [reflexivity|]);
    (split; [apply length_fmap|]);
    apply Forall_fmap, Forall_forall; intros metric _; reflexivity.
Qed.
